(** * Verification of [can_form_triangle]

    Source: QuadraticEquationLab/QuadraticEquationSolver.Tests/TestTriangleFunction.py

    The Python function validates three side lengths (type gate, positivity
    gate) and then evaluates the triangle inequality with the operands'
    native arithmetic.  The embedding below keeps Python's numeric tower as
    the function sees it: [bool] is a subclass of [int], [int] is unbounded
    (Z), [float] is IEEE 754 binary64 (the Standard Library's [spec_float]
    with [prec = 53] and [emax = 1024]), mixed [int]/[float] addition
    converts the [int] operand to a [float] (and raises [OverflowError] when
    it does not fit), and mixed comparisons are exact.

    Layout: the embedding (module [Py], [can_form_triangle]), the vocabulary
    of the specification, facts about binary64 rounding (module [Float64]),
    facts about the operators, and then the properties of the function. *)

From Stdlib Require Import ZArith List String Bool Lia Permutation.
From Stdlib Require Import DecimalString.
From Stdlib Require Import SpecFloat.
Import ListNotations.
Open Scope Z_scope.

(** ** Python values, exceptions and results *)

Module Py.

(** The objects the function can be handed.  Containers carry their items;
    nothing in the function inspects them. *)
#[warnings="-register-all"]
Inductive value : Type :=
| PyNone
| PyBool (b : bool)
| PyInt (z : Z)
| PyFloat (f : spec_float)
| PyStr (s : string)
| PyList (items : list value)
| PyDict (items : list (value * value)).

Inductive exn : Type :=
| TypeError (msg : string)
| ValueError (msg : string)
| OverflowError (msg : string).

(** A call either returns or raises. *)
Inductive result (A : Type) : Type :=
| Return (v : A)
| Raise (e : exn).

Arguments Return {A} v.
Arguments Raise {A} e.

Definition bind {A B : Type} (m : result A) (k : A -> result B) : result B :=
  match m with
  | Return v => k v
  | Raise e => Raise e
  end.

Notation "x <- m ;; k" := (bind m (fun x => k))
  (at level 61, m at next level, right associativity).

(** [all(p(x) for x in xs)]: the generator is consumed left to right and
    stops at the first falsy item; an exception raised by [p] propagates. *)
Fixpoint all_gen {A : Type} (p : A -> result bool) (xs : list A) : result bool :=
  match xs with
  | [] => Return true
  | x :: xs' => b <- p x ;; if b then all_gen p xs' else Return false
  end.

(** [needle in haystack] on [str]. *)
Definition str_contains (needle haystack : string) : bool :=
  match String.index 0 needle haystack with
  | Some _ => true
  | None => false
  end.

(** *** binary64 *)

Definition prec : Z := 53.
Definition emax : Z := 1024.

Definition fadd : spec_float -> spec_float -> spec_float := SFadd prec emax.
Definition fmul : spec_float -> spec_float -> spec_float := SFmul prec emax.
Definition fvalid : spec_float -> bool := valid_binary prec emax.

(** [float(z)] for an [int] operand of mixed arithmetic: round to nearest
    even; a result beyond the largest finite double is an [OverflowError]. *)
Definition float_of_int (z : Z) : result spec_float :=
  match binary_normalize prec emax z 0 false with
  | S754_infinity _ => Raise (OverflowError "int too large to convert to float")
  | f => Return f
  end.

(** Exact comparison of an [int] with a [float] (Python never rounds the
    [int] here): [None] when the float is a NaN. *)
Definition cmp_int_float (z : Z) (f : spec_float) : option comparison :=
  match f with
  | S754_nan => None
  | S754_infinity s => Some (if s then Gt else Lt)
  | S754_zero _ => Some (z ?= 0)
  | S754_finite s m e =>
      let v := cond_Zopp s (Zpos m) in
      Some (if 0 <=? e then z ?= v * 2 ^ e else z * 2 ^ (- e) ?= v)
  end.

(** *** The numeric tower: [bool <: int], [float] *)

Inductive num : Type :=
| NInt (z : Z)
| NFloat (f : spec_float).

Definition as_num (v : value) : option num :=
  match v with
  | PyBool b => Some (NInt (Z.b2z b))
  | PyInt z => Some (NInt z)
  | PyFloat f => Some (NFloat f)
  | _ => None
  end.

Definition of_num (n : num) : value :=
  match n with
  | NInt z => PyInt z
  | NFloat f => PyFloat f
  end.

(** [isinstance(v, (int, float))] *)
Definition isinstance_int_float (v : value) : bool :=
  match v with
  | PyBool _ | PyInt _ | PyFloat _ => true
  | _ => false
  end.

Definition num_add (x y : num) : result num :=
  match x, y with
  | NInt a, NInt b => Return (NInt (a + b))
  | NFloat f, NFloat g => Return (NFloat (fadd f g))
  | NInt a, NFloat g => f <- float_of_int a ;; Return (NFloat (fadd f g))
  | NFloat f, NInt b => g <- float_of_int b ;; Return (NFloat (fadd f g))
  end.

Definition num_mul (x y : num) : result num :=
  match x, y with
  | NInt a, NInt b => Return (NInt (a * b))
  | NFloat f, NFloat g => Return (NFloat (fmul f g))
  | NInt a, NFloat g => f <- float_of_int a ;; Return (NFloat (fmul f g))
  | NFloat f, NInt b => g <- float_of_int b ;; Return (NFloat (fmul f g))
  end.

(** Three-way comparison; [None] is "unordered" (a NaN is involved). *)
Definition num_compare (x y : num) : option comparison :=
  match x, y with
  | NInt a, NInt b => Some (a ?= b)
  | NFloat f, NFloat g => SFcompare f g
  | NInt a, NFloat g => cmp_int_float a g
  | NFloat f, NInt b => option_map CompOpp (cmp_int_float b f)
  end.

Definition num_gt (x y : num) : bool :=
  match num_compare x y with Some Gt => true | _ => false end.

Definition num_lt (x y : num) : bool :=
  match num_compare x y with Some Lt => true | _ => false end.

Definition num_eq (x y : num) : bool :=
  match num_compare x y with Some Eq => true | _ => false end.

(** Operators on objects.  Only numeric operands are given their Python
    meaning; every other operand kind raises [TypeError] here (Python's
    [str] and [list] concatenation and ordering are not part of the model:
    the type gate of [can_form_triangle] rejects such operands before any
    operator is applied, see [operators_see_numbers_only]). *)
Definition lift2 {A : Type} (op : string) (f : num -> num -> result A)
    (x y : value) : result A :=
  match as_num x, as_num y with
  | Some n, Some m => f n m
  | _, _ => Raise (TypeError ("unsupported operand type(s) for " ++ op))
  end.

Definition py_add (x y : value) : result value :=
  lift2 "+" (fun n m => r <- num_add n m ;; Return (of_num r)) x y.

Definition py_mul (x y : value) : result value :=
  lift2 "*" (fun n m => r <- num_mul n m ;; Return (of_num r)) x y.

Definition py_gt (x y : value) : result bool :=
  lift2 ">" (fun n m => Return (num_gt n m)) x y.

Definition py_lt (x y : value) : result bool :=
  lift2 "<" (fun n m => Return (num_lt n m)) x y.

Definition py_eq (x y : value) : result bool :=
  lift2 "==" (fun n m => Return (num_eq n m)) x y.

End Py.

Import Py.

(** ** The function under verification *)

Definition can_form_triangle (a b c : value) : result bool :=
  (* Type validation *)
  numbers <- all_gen (fun side => Return (isinstance_int_float side)) [a; b; c] ;;
  if negb numbers then
    Raise (TypeError "All sides must be numeric (int or float)")
  else
  (* Positive value validation *)
  positive <- all_gen (fun side => py_gt side (PyInt 0)) [a; b; c] ;;
  if negb positive then
    Raise (ValueError "All sides must be positive numbers")
  else
  (* Triangle inequality theorem: a + b > c AND a + c > b AND b + c > a *)
  c1 <- (s <- py_add a b ;; py_gt s c) ;;
  if negb c1 then Return false else
  c2 <- (s <- py_add a c ;; py_gt s b) ;;
  if negb c2 then Return false else
  s <- py_add b c ;; py_gt s a.

(** ** Literals used by the tests and the scenarios *)

Definition f_1_0 : spec_float := S754_finite false 4503599627370496 (-52).
Definition f_1_5 : spec_float := S754_finite false 6755399441055744 (-52).
Definition f_2_5 : spec_float := S754_finite false 5629499534213120 (-51).
Definition f_3_1 : spec_float := S754_finite false 6980579422424269 (-51).
Definition f_2p53 : spec_float := S754_finite false 4503599627370496 1.
Definition f_2m60 : spec_float := S754_finite false 4503599627370496 (-112).

(** An [int] too large for a double: [10 ** 400]. *)
Definition huge : Z := 10 ^ 400.

Definition type_error_msg : string := "All sides must be numeric (int or float)".
Definition value_error_msg : string := "All sides must be positive numbers".
Definition overflow_msg : string := "int too large to convert to float".

(** ** Vocabulary of the specification *)

(** "numeric": an [int] (hence also a [bool]) or a [float]. *)
Definition numeric (v : value) : Prop := isinstance_int_float v = true.

(** A [float] object always holds a double: a finite one has a canonical
    mantissa and exponent. *)
Definition well_formed (v : value) : bool :=
  match v with
  | PyFloat f => fvalid f
  | _ => true
  end.

(** "strictly positive", read off the value and not off the code's test:
    a positive integer, [True], a positive finite float or [+inf]. *)
Definition strictly_positive (v : value) : bool :=
  match v with
  | PyBool b => b
  | PyInt z => 0 <? z
  | PyFloat (S754_finite false _ _) => true
  | PyFloat (S754_infinity false) => true
  | _ => false
  end.

(** "zero or negative": an integer [<= 0], [False], a float zero of either
    sign, a negative finite float or [-inf].  A NaN is neither. *)
Definition zero_or_negative (v : value) : bool :=
  match v with
  | PyBool b => negb b
  | PyInt z => z <=? 0
  | PyFloat (S754_zero _) => true
  | PyFloat (S754_finite true _ _) => true
  | PyFloat (S754_infinity true) => true
  | _ => false
  end.

(** [int] or [bool]: the operands whose arithmetic is exact. *)
Definition is_int (v : value) : bool :=
  match v with
  | PyBool _ | PyInt _ => true
  | _ => false
  end.

(** The native expression [x + y > z]. *)
Definition sum_gt (x y z : value) : result bool :=
  s <- py_add x y ;; py_gt s z.

(** The native expression [x + y == z]. *)
Definition sum_eq (x y z : value) : result bool :=
  s <- py_add x y ;; py_eq s z.

(** "a + b == c, or any permutation": some arrangement [(x, y, z)] of the
    three sides has [x + y == z]. *)
Definition degenerate (a b c : value) : Prop :=
  exists x y z, Permutation [x; y; z] [a; b; c] /\ sum_eq x y z = Return true.

(** [max(a, b, c)]: the first maximal item, found with [>]. *)
Definition py_max3 (a b c : value) : result value :=
  g1 <- py_gt b a ;;
  let m := if g1 then b else a in
  g2 <- py_gt c m ;;
  Return (if g2 then c else m).

(** The single inequality [2 * max(a, b, c) < a + b + c], written after
    the specification and evaluated with the same native arithmetic. *)
Definition max_formulation (a b c : value) : result bool :=
  m <- py_max3 a b c ;;
  d <- py_mul (PyInt 2) m ;;
  s1 <- py_add a b ;;
  s <- py_add s1 c ;;
  py_lt d s.

(** ** The function on numbers *)

(** The inequality chain on numbers, as the last line of the function
    evaluates it once the gates have let the operands through. *)
Definition triangle_num (x y z : num) : result bool :=
  c1 <- (s <- num_add x y ;; Return (num_gt s z)) ;;
  if negb c1 then Return false else
  c2 <- (s <- num_add x z ;; Return (num_gt s y)) ;;
  if negb c2 then Return false else
  s <- num_add y z ;; Return (num_gt s x).

Definition num_positive (n : num) : bool := num_gt n (NInt 0).

(** The function seen through [as_num]: both gates and the chain. *)
Definition cft_view (oa ob oc : option num) : result bool :=
  match oa, ob, oc with
  | Some x, Some y, Some z =>
      if num_positive x && num_positive y && num_positive z
      then triangle_num x y z
      else Raise (ValueError value_error_msg)
  | _, _, _ => Raise (TypeError type_error_msg)
  end.

(** [x + y > z] and [x + y == z] as booleans, [false] when the sum raises. *)
Definition sum_gtb (x y z : num) : bool :=
  match num_add x y with
  | Return s => num_gt s z
  | Raise _ => false
  end.

Definition sum_eqb (x y z : num) : bool :=
  match num_add x y with
  | Return s => num_eq s z
  | Raise _ => false
  end.

(** *** Where the arithmetic cannot overflow *)

Definition num_fits (n : num) : bool :=
  match n with
  | NInt z => match float_of_int z with Return _ => true | Raise _ => false end
  | NFloat _ => true
  end.

Definition num_is_int (n : num) : bool :=
  match n with NInt _ => true | NFloat _ => false end.

(** Every [int] operand fits a double, or no operand is a [float]. *)
Definition arith_safe (x y z : num) : bool :=
  (num_fits x && num_fits y && num_fits z)
  || (num_is_int x && num_is_int y && num_is_int z).

Definition no_mixed_overflow (a b c : value) : bool :=
  match as_num a, as_num b, as_num c with
  | Some x, Some y, Some z => arith_safe x y z
  | _, _, _ => true
  end.

(** *** Magnitudes of doubles *)

(** The largest finite double, as an integer. *)
Definition max_float_int : Z := (2 ^ 53 - 1) * 2 ^ 971.

(** A finite double has at most 53 mantissa bits and exponent at most 971. *)
Definition fbounded (f : spec_float) : Prop :=
  match f with
  | S754_finite _ m e => Z.pos m < 2 ^ 53 /\ e <= 971
  | _ => True
  end.

Definition is_infinity (f : spec_float) : bool :=
  match f with S754_infinity _ => true | _ => false end.

Definition num_bounded (n : num) : Prop :=
  match n with
  | NFloat f => fbounded f
  | NInt _ => True
  end.

(** An [int] side no larger than the largest finite double. *)
Definition int_within_double_range (v : value) : bool :=
  match v with
  | PyInt z => z <=? max_float_int
  | _ => true
  end.

(** *** Sides that hold a small integer *)

(** A rounding record with nothing shifted out yet. *)
Definition exact_record (m : Z) : shr_record :=
  {| shr_m := m; shr_r := false; shr_s := false |}.

(** [f] is the normal double of the integer [n]: 53 mantissa bits, an
    exponent between -52 and 0. *)
Definition holds_int (f : spec_float) (n : Z) : Prop :=
  exists m e, f = S754_finite false m e /\ -52 <= e <= 0
              /\ 2 ^ 52 <= Z.pos m < 2 ^ 53 /\ Z.pos m = n * 2 ^ (- e).

(** A number that holds the integer [v]. *)
Definition num_holds (n : num) (v : Z) : Prop :=
  match n with
  | NInt z => z = v
  | NFloat f => holds_int f v
  end.

(** The object [v] is the integer [n], written as an [int], as a [bool] or
    as the [float] of [n]. *)
Definition side_holds (v : value) (n : Z) : Prop :=
  match v with
  | PyBool b => Z.b2z b = n
  | PyInt z => z = n
  | PyFloat f => float_of_int n = Return f
  | _ => False
  end.

(** ** The rest of the file: the unit tests, their runner and the script *)

Open Scope string_scope.

(** *** Literals of the tests *)

Definition f_0_001 : spec_float := S754_finite false 4611686018427388 (-62).
Definition f_0_002 : spec_float := S754_finite false 4611686018427388 (-61).
Definition f_0_1 : spec_float := S754_finite false 7205759403792794 (-56).
Definition f_0_2 : spec_float := S754_finite false 7205759403792794 (-55).
Definition f_0_25 : spec_float := S754_finite false 4503599627370496 (-54).
Definition f_0_3 : spec_float := S754_finite false 5404319552844595 (-54).
Definition f_1_1 : spec_float := S754_finite false 4953959590107546 (-52).
Definition f_2_0 : spec_float := S754_finite false 4503599627370496 (-51).
Definition f_3_0 : spec_float := S754_finite false 6755399441055744 (-51).
Definition f_3_5 : spec_float := S754_finite false 7881299347898368 (-51).
Definition f_4_0 : spec_float := S754_finite false 4503599627370496 (-50).
Definition f_5_0 : spec_float := S754_finite false 5629499534213120 (-50).

(** [sys.float_info.max] and true division of floats. *)
Definition float_info_max : spec_float := SFmax_float prec emax.
Definition fdiv : spec_float -> spec_float -> spec_float := SFdiv prec emax.

(** The [str] ["\n"]. *)
Definition newline : string := String (Ascii.ascii_of_nat 10) EmptyString.

(** [s * n] for a [str]. *)
Fixpoint str_repeat (s : string) (n : nat) : string :=
  match n with
  | O => EmptyString
  | S n' => s ++ str_repeat s n'
  end.

(** [type(e).__name__] and [str(e)]. *)
Definition exn_name (e : exn) : string :=
  match e with
  | TypeError _ => "TypeError"
  | ValueError _ => "ValueError"
  | OverflowError _ => "OverflowError"
  end.

Definition exn_str (e : exn) : string :=
  match e with
  | TypeError msg | ValueError msg | OverflowError msg => msg
  end.

(** *** unittest: assertions *)

Module Unittest.

(** The exception classes the tests name.  None of the three classes of
    [exn] is a subclass of another. *)
Inductive exn_class : Type := TypeErrorClass | ValueErrorClass.

Definition isinstance_exn (e : exn) (cls : exn_class) : bool :=
  match e, cls with
  | TypeError _, TypeErrorClass => true
  | ValueError _, ValueErrorClass => true
  | _, _ => false
  end.

(** What ends a test method early: an assertion that fails (unittest
    counts a failure; the text it composes is not modelled) or an exception
    nothing catches (unittest counts an error). *)
Inductive stop : Type :=
| AssertionError
| Uncaught (e : exn).

Inductive step (A : Type) : Type :=
| Ok (v : A)
| Stop (s : stop).

Arguments Ok {A} v.
Arguments Stop {A} s.

Definition and_then {A B : Type} (m : step A) (k : A -> step B) : step B :=
  match m with
  | Ok v => k v
  | Stop s => Stop s
  end.

Notation "x <~ m ;;; k" := (and_then m (fun x => k))
  (at level 61, m at next level, right associativity).
Notation "m ;;; k" := (and_then m (fun _ => k))
  (at level 61, right associativity).

(** A call whose exception, if any, leaves the test method. *)
Definition call {A : Type} (r : result A) : step A :=
  match r with
  | Return v => Ok v
  | Raise e => Stop (Uncaught e)
  end.

Definition assertTrue (r : result bool) : step unit :=
  b <~ call r ;;; if b then Ok tt else Stop AssertionError.

Definition assertFalse (r : result bool) : step unit :=
  b <~ call r ;;; if b then Stop AssertionError else Ok tt.

(** [with self.assertRaises(cls) as context: body]: the exception caught
    is [context.exception]; one of another class goes through. *)
Definition assertRaises {A : Type} (cls : exn_class) (body : result A) : step exn :=
  match body with
  | Return _ => Stop AssertionError
  | Raise e => if isinstance_exn e cls then Ok e else Stop (Uncaught e)
  end.

Definition assertIn (needle haystack : string) : step unit :=
  if str_contains needle haystack then Ok tt else Stop AssertionError.

(** [assertIsInstance(v, bool)] on a value that is a [bool]. *)
Definition assertIsInstance_bool (v : bool) : step unit := Ok tt.

(** *** unittest: the result of a run *)

Record TestResult : Type := {
  testsRun : nat;
  failures : list string;
  errors : list string
}.

Definition wasSuccessful (r : TestResult) : bool :=
  (Nat.eqb (List.length (failures r)) 0) && (Nat.eqb (List.length (errors r)) 0).

(** Running the methods one after the other; a failure or an error is
    recorded under the name of its method. *)
Fixpoint run (tests : list (string * step unit)) (r : TestResult) : TestResult :=
  match tests with
  | [] => r
  | (name, body) :: rest =>
      let r' :=
        match body with
        | Ok _ =>
            {| testsRun := S (testsRun r); failures := failures r;
               errors := errors r |}
        | Stop AssertionError =>
            {| testsRun := S (testsRun r); failures := (failures r ++ [name])%list;
               errors := errors r |}
        | Stop (Uncaught _) =>
            {| testsRun := S (testsRun r); failures := failures r;
               errors := (errors r ++ [name])%list |}
        end in
      run rest r'
  end.

End Unittest.

Import Unittest.

(** *** class TestTriangleFunction *)

Definition test_valid_triangles : step unit :=
  assertTrue (can_form_triangle (PyInt 3) (PyInt 4) (PyInt 5)) ;;;
  assertTrue (can_form_triangle (PyInt 5) (PyInt 5) (PyInt 5)) ;;;
  assertTrue (can_form_triangle (PyInt 3) (PyInt 4) (PyInt 6)) ;;;
  assertTrue (can_form_triangle (PyInt 5) (PyInt 5) (PyInt 8)) ;;;
  assertTrue (can_form_triangle (PyFloat f_2_5) (PyFloat f_3_5) (PyFloat f_4_0)) ;;;
  assertTrue (can_form_triangle (PyInt 100) (PyInt 150) (PyInt 200)).

Definition test_invalid_triangles : step unit :=
  assertFalse (can_form_triangle (PyInt 1) (PyInt 2) (PyInt 5)) ;;;
  assertFalse (can_form_triangle (PyInt 1) (PyInt 1) (PyInt 3)) ;;;
  assertFalse (can_form_triangle (PyInt 1) (PyInt 2) (PyInt 3)) ;;;
  assertFalse (can_form_triangle (PyInt 1) (PyInt 1) (PyInt 10)).

Definition test_edge_cases : step unit :=
  assertTrue (can_form_triangle (PyInt 1) (PyInt 2) (PyFloat f_2_5)) ;;;
  assertFalse (can_form_triangle (PyInt 1) (PyInt 2) (PyFloat f_3_1)) ;;;
  assertTrue (can_form_triangle (PyFloat f_0_001) (PyFloat f_0_002) (PyFloat f_0_002)) ;;;
  assertTrue (can_form_triangle (PyInt 1) (PyInt 1) (PyInt 1)).

Definition test_error_handling : step unit :=
  context <~ assertRaises ValueErrorClass
               (can_form_triangle (PyInt (-1)) (PyInt 2) (PyInt 3)) ;;;
  assertIn "positive" (exn_str context) ;;;
  assertRaises ValueErrorClass (can_form_triangle (PyInt 0) (PyInt 2) (PyInt 3)) ;;;
  assertRaises ValueErrorClass (can_form_triangle (PyInt 1) (PyInt 0) (PyInt 3)) ;;;
  assertRaises ValueErrorClass (can_form_triangle (PyInt 1) (PyInt 2) (PyInt 0)) ;;;
  context <~ assertRaises TypeErrorClass
               (can_form_triangle (PyStr "3") (PyInt 4) (PyInt 5)) ;;;
  assertIn "numeric" (exn_str context) ;;;
  assertRaises TypeErrorClass (can_form_triangle PyNone (PyInt 4) (PyInt 5)) ;;;
  assertRaises TypeErrorClass (can_form_triangle (PyInt 3) (PyList []) (PyInt 5)) ;;;
  assertRaises TypeErrorClass (can_form_triangle (PyInt 3) (PyInt 4) (PyDict [])) ;;;
  Ok tt.

Definition test_order_independence : step unit :=
  assertTrue (can_form_triangle (PyInt 3) (PyInt 4) (PyInt 5)) ;;;
  assertTrue (can_form_triangle (PyInt 4) (PyInt 3) (PyInt 5)) ;;;
  assertTrue (can_form_triangle (PyInt 5) (PyInt 3) (PyInt 4)) ;;;
  assertTrue (can_form_triangle (PyInt 3) (PyInt 5) (PyInt 4)) ;;;
  assertTrue (can_form_triangle (PyInt 4) (PyInt 5) (PyInt 3)) ;;;
  assertTrue (can_form_triangle (PyInt 5) (PyInt 4) (PyInt 3)) ;;;
  assertFalse (can_form_triangle (PyInt 1) (PyInt 2) (PyInt 5)) ;;;
  assertFalse (can_form_triangle (PyInt 2) (PyInt 1) (PyInt 5)) ;;;
  assertFalse (can_form_triangle (PyInt 5) (PyInt 1) (PyInt 2)).

Definition test_floating_point_precision : step unit :=
  assertTrue (can_form_triangle (PyFloat f_0_1) (PyFloat f_0_2) (PyFloat f_0_25)) ;;;
  assertTrue (can_form_triangle (PyFloat f_1_1) (PyFloat f_1_1) (PyFloat f_1_1)) ;;;
  let a := PyFloat f_0_1 in
  let b := PyFloat f_0_2 in
  let c := PyFloat f_0_3 in
  result <~ call (can_form_triangle a b c) ;;;
  assertIsInstance_bool result.

(** [sys.maxsize] depends on the platform and is left as a parameter. *)
Definition test_large_numbers (sys_maxsize : Z) : step unit :=
  let large_num := PyFloat (fdiv float_info_max f_4_0) in
  assertTrue (can_form_triangle large_num large_num large_num) ;;;
  let max_int := PyInt (sys_maxsize / 4) in
  assertTrue (can_form_triangle max_int max_int max_int).

Definition test_mixed_types : step unit :=
  assertTrue (can_form_triangle (PyInt 3) (PyFloat f_4_0) (PyInt 5)) ;;;
  assertTrue (can_form_triangle (PyFloat f_3_0) (PyInt 4) (PyFloat f_5_0)) ;;;
  assertFalse (can_form_triangle (PyInt 1) (PyFloat f_2_0) (PyInt 5)).

(** [unittest.TestLoader().loadTestsFromTestCase(TestTriangleFunction)]:
    the methods whose name starts with [test], sorted by name. *)
Definition loadTests (sys_maxsize : Z) : list (string * step unit) :=
  [ ("test_edge_cases", test_edge_cases);
    ("test_error_handling", test_error_handling);
    ("test_floating_point_precision", test_floating_point_precision);
    ("test_invalid_triangles", test_invalid_triangles);
    ("test_large_numbers", test_large_numbers sys_maxsize);
    ("test_mixed_types", test_mixed_types);
    ("test_order_independence", test_order_independence);
    ("test_valid_triangles", test_valid_triangles) ].

(** *** The interpreter around the script *)

(** The decimal text of an integer. *)
Definition decimal_text (z : Z) : string := NilZero.string_of_int (Z.to_int z).

(** The number of decimal digits of [z], its sign apart. *)
Definition decimal_digits (z : Z) : Z :=
  Z.of_nat (String.length (decimal_text (Z.abs z))).

(** [sys.int_info.str_digits_check_threshold]: shorter texts are never
    checked against the limit. *)
Definition str_digits_check_threshold : Z := 640.

Definition max_str_digits_msg (limit : Z) : string :=
  "Exceeds the limit (" ++ decimal_text limit
  ++ " digits) for integer string conversion; "
  ++ "use sys.set_int_max_str_digits() to increase the limit".

(** [str(z)] for an [int], which is also what [{z}] does in an f-string.
    [limit] is [sys.get_int_max_str_digits()]: 4300 unless it was changed,
    0 when there is no limit (as in the versions of Python that have none).
    An [int] with more digits than the limit is not converted. *)
Definition int_to_str (limit z : Z) : result string :=
  let digits := decimal_digits z in
  let chars := if (z <? 0)%Z then digits + 1 else digits in
  if ((str_digits_check_threshold <? chars) && (0 <? limit)
      && (limit <? digits))%Z
  then Raise (ValueError (max_str_digits_msg limit))
  else Return (decimal_text z).

(** [str(b)] for a [bool]. *)
Definition bool_to_str (b : bool) : string := if b then "True" else "False".

(** What the script takes from the interpreter that runs it.  A write can
    fail: [print] raises [UnicodeEncodeError] when the encoding of the
    standard output lacks a character of the line, [OSError] when the
    stream is broken, and so on; which one, and what the stream holds
    afterwards, is up to the interpreter.  All these exceptions are
    subclasses of [Exception]. *)
Record Interpreter : Type := {
  stream : Type;
  io_error : Type;
  (** [type(e).__name__] and [str(e)] *)
  io_error_name : io_error -> string;
  io_error_str : io_error -> string;
  (** [print(line)] *)
  write_stdout : string -> stream -> stream * option io_error;
  (** what [unittest.TextTestRunner] writes while it runs a suite *)
  runner_writes : TestResult -> stream -> stream * option io_error;
  (** [sys.get_int_max_str_digits()] and [sys.maxsize] *)
  int_max_str_digits : Z;
  maxsize : Z
}.

Module Script.

(** An exception in flight: one of the function or of a conversion, or
    one of a write. *)
Inductive raised (I : Interpreter) : Type :=
| Raised (e : exn)
| RaisedIO (e : io_error I).

Arguments Raised {I} e.
Arguments RaisedIO {I} e.

Definition raised_name {I : Interpreter} (r : raised I) : string :=
  match r with
  | Raised e => exn_name e
  | RaisedIO e => io_error_name I e
  end.

Definition raised_str {I : Interpreter} (r : raised I) : string :=
  match r with
  | Raised e => exn_str e
  | RaisedIO e => io_error_str I e
  end.

(** Statements of the script: they act on the streams and end normally
    or with an exception. *)
Definition script (I : Interpreter) (A : Type) : Type :=
  stream I -> (A + raised I) * stream I.

Definition done {I : Interpreter} {A : Type} (v : A) : script I A :=
  fun w => (inl v, w).

Definition seq {I : Interpreter} {A B : Type}
    (m : script I A) (k : A -> script I B) : script I B :=
  fun w =>
    match m w with
    | (inl v, w') => k v w'
    | (inr r, w') => (inr r, w')
    end.

Notation "x <<- m ;; k" := (seq m (fun x => k))
  (at level 61, m at next level, right associativity).
Notation "m ;;> k" := (seq m (fun _ => k))
  (at level 61, right associativity).

(** An expression of the function's world evaluated in the script. *)
Definition eval {I : Interpreter} {A : Type} (r : result A) : script I A :=
  fun w =>
    match r with
    | Return v => (inl v, w)
    | Raise e => (inr (Raised e), w)
    end.

Definition of_write {I : Interpreter} {A : Type} (v : A)
    (o : stream I * option (io_error I)) : (A + raised I) * stream I :=
  match o with
  | (w', None) => (inl v, w')
  | (w', Some e) => (inr (RaisedIO e), w')
  end.

Definition print (I : Interpreter) (line : string) : script I unit :=
  fun w => of_write tt (write_stdout I line w).

(** [try: body  except Exception as e: handler] *)
Definition try_except {I : Interpreter} {A : Type}
    (body : script I A) (handler : raised I -> script I A) : script I A :=
  fun w =>
    match body w with
    | (inl v, w') => (inl v, w')
    | (inr e, w') => handler e w'
    end.

(** [for x in xs: body] *)
Fixpoint for_each {I : Interpreter} {X : Type}
    (xs : list X) (body : X -> script I unit) : script I unit :=
  match xs with
  | [] => done tt
  | x :: rest => body x ;;> for_each rest body
  end.

(** [runner.run(suite)] *)
Definition runner_run (I : Interpreter) (suite : list (string * step unit))
    : script I TestResult :=
  fun w =>
    let result := run suite {| testsRun := 0; failures := []; errors := [] |} in
    of_write result (runner_writes I result w).

End Script.

Import Script.

(** *** run_triangle_tests and the script *)

Definition run_triangle_tests (I : Interpreter) : script I bool :=
  let limit := int_max_str_digits I in
  print I "Running Triangle Validation Tests..." ;;>
  print I (str_repeat "=" 50) ;;>
  let suite := loadTests (maxsize I) in
  result <<- runner_run I suite ;;
  print I (newline ++ str_repeat "=" 50) ;;>
  tests_run <<- eval (int_to_str limit (Z.of_nat (testsRun result))) ;;
  print I ("Tests run: " ++ tests_run) ;;>
  n_failures <<- eval (int_to_str limit
                         (Z.of_nat (List.length (failures result)))) ;;
  print I ("Failures: " ++ n_failures) ;;>
  n_errors <<- eval (int_to_str limit
                       (Z.of_nat (List.length (errors result)))) ;;
  print I ("Errors: " ++ n_errors) ;;>
  (if wasSuccessful result then print I "All tests passed! ✅"
   else print I "Some tests failed! ❌") ;;>
  done (wasSuccessful result).

(** The text [can_form_triangle({a}, {b}, {c})] of both f-strings. *)
Definition call_text (limit a b c : Z) : result string :=
  sa <- int_to_str limit a ;;
  sb <- int_to_str limit b ;;
  sc <- int_to_str limit c ;;
  Return ("can_form_triangle(" ++ sa ++ ", " ++ sb ++ ", " ++ sc ++ ")").

(** The body of the example loop, for a case of three [int]s. *)
Definition example_case (I : Interpreter) (a b c : Z) : script I unit :=
  let limit := int_max_str_digits I in
  try_except
    (result <<- eval (can_form_triangle (PyInt a) (PyInt b) (PyInt c)) ;;
     line <<- eval (t <- call_text limit a b c ;;
                    Return (t ++ " = " ++ bool_to_str result)) ;;
     print I line)
    (fun e =>
     line <<- eval (t <- call_text limit a b c ;;
                    Return (t ++ " raised " ++ raised_name e ++ ": "
                            ++ raised_str e)) ;;
     print I line).

Definition test_cases : list (Z * Z * Z) :=
  [ (3, 4, 5); (5, 5, 5); (1, 2, 5); (1, 2, 3) ].

(** [if __name__ == '__main__':] *)
Definition main (I : Interpreter) : script I unit :=
  print I "Triangle Validation Function Examples:" ;;>
  print I (str_repeat "-" 40) ;;>
  for_each test_cases (fun '(a, b, c) => example_case I a b c) ;;>
  print I newline ;;>
  run_triangle_tests I ;;>
  done tt.

(** *** Vocabulary for the script *)

(** Printing lines one after the other. *)
Definition print_all (I : Interpreter) (lines : list string) : script I unit :=
  for_each lines (print I).

(** What the runner writes for a given result. *)
Definition report (I : Interpreter) (r : TestResult) : script I unit :=
  fun w => of_write tt (runner_writes I r w).

(** An [int] that [str] converts under the limit. *)
Definition str_fits (limit z : Z) : bool :=
  match int_to_str limit z with
  | Return _ => true
  | Raise _ => false
  end.

(** The line the example loop is to print for three [int]s. *)
Definition plain_call_text (a b c : Z) : string :=
  "can_form_triangle(" ++ decimal_text a ++ ", " ++ decimal_text b ++ ", "
  ++ decimal_text c ++ ")".

Definition expected_line (a b c : Z) : string :=
  plain_call_text a b c
  ++ (if ((0 <? a) && (0 <? b) && (0 <? c))%Z
      then " = " ++ bool_to_str ((c <? a + b) && (b <? a + c) && (a <? b + c))%Z
      else " raised ValueError: All sides must be positive numbers").

(** An interpreter whose standard output takes every line (a UTF-8
    terminal), with the default conversion limit, on a 64-bit platform.
    Its stream is the list of the lines printed. *)
Definition utf8_terminal : Interpreter :=
  {| stream := list string;
     io_error := Empty_set;
     io_error_name := fun e => match e with end;
     io_error_str := fun e => match e with end;
     write_stdout := fun line w => ((w ++ [line])%list, None);
     runner_writes := fun _ w => (w, None);
     int_max_str_digits := 4300;
     maxsize := 2 ^ 63 - 1 |}.

Close Scope string_scope.

(** ** Facts about binary64 rounding *)

Module Float64.

(** *** Digits and shifts *)

Lemma digits2_pos_size (p : positive) : digits2_pos p = Pos.size p.
Proof. induction p; simpl; congruence. Qed.

Lemma Zdigits2_log2 (m : Z) : 0 < m -> Zdigits2 m = Z.log2 m + 1.
Proof.
  destruct m as [|p|p]; try lia. intros _. simpl.
  rewrite digits2_pos_size. destruct p; simpl; lia.
Qed.

Lemma Zdigits2_le (m k : Z) : 0 <= k -> 0 <= m < 2 ^ k -> Zdigits2 m <= k.
Proof.
  intros Hk [H0 H1]. destruct (Z.eq_dec m 0) as [->|N]; [simpl; lia|].
  rewrite Zdigits2_log2 by lia.
  assert (Z.log2 m < k) by (apply Z.log2_lt_pow2; lia). lia.
Qed.

Lemma shr_m_shr_1 (r : shr_record) :
  0 <= shr_m r -> shr_m (shr_1 r) = Z.div2 (shr_m r).
Proof.
  destruct r as [m b s]. simpl. destruct m as [|p|p]; try lia; intros _.
  - reflexivity.
  - destruct p; reflexivity.
Qed.

(** Shifting a rounding record right by [p] bits shifts its mantissa. *)
Lemma shr_m_iter (p : positive) : forall r : shr_record,
  0 <= shr_m r ->
  shr_m (iter_pos shr_1 p r) = Z.shiftr (shr_m r) (Z.pos p)
  /\ 0 <= shr_m (iter_pos shr_1 p r).
Proof.
  assert (D : forall r, 0 <= shr_m r ->
     shr_m (shr_1 r) = Z.shiftr (shr_m r) 1 /\ 0 <= shr_m (shr_1 r)).
  { intros r H. rewrite (shr_m_shr_1 r H), Z.div2_spec. split; [reflexivity|].
    apply Z.shiftr_nonneg; lia. }
  induction p as [p IH|p IH|]; intros r H; simpl.
  - destruct (D r H) as [E1 N1].
    destruct (IH _ N1) as [E2 N2]. destruct (IH _ N2) as [E3 N3].
    split; [|exact N3]. rewrite E3, E2, E1, !Z.shiftr_shiftr by lia.
    f_equal; lia.
  - destruct (IH _ H) as [E2 N2]. destruct (IH _ N2) as [E3 N3].
    split; [|exact N3]. rewrite E3, E2, !Z.shiftr_shiftr by lia.
    f_equal; lia.
  - apply D, H.
Qed.

(** [shr_fexp] moves the exponent up to the canonical one and shifts the
    mantissa by the difference. *)
Lemma shr_fexp_spec (m e : Z) (l : location) :
  0 <= m ->
  snd (shr_fexp prec emax m e l) = Z.max e (fexp prec emax (Zdigits2 m + e))
  /\ shr_m (fst (shr_fexp prec emax m e l))
     = Z.shiftr m (snd (shr_fexp prec emax m e l) - e).
Proof.
  intros H. unfold shr_fexp, shr.
  assert (Hm : shr_m (shr_record_of_loc m l) = m)
    by (destruct l as [|[]]; reflexivity).
  destruct (fexp prec emax (Zdigits2 m + e) - e) as [|p|p] eqn:E; simpl.
  - split; [lia|]. now rewrite Hm, Z.sub_diag.
  - split; [lia|].
    destruct (shr_m_iter p (shr_record_of_loc m l)) as [E1 _]; [now rewrite Hm|].
    rewrite E1, Hm. f_equal; lia.
  - split; [lia|]. now rewrite Hm, Z.sub_diag.
Qed.

Lemma round_nearest_even_range (m : Z) (l : location) :
  m <= round_nearest_even m l <= m + 1.
Proof.
  destruct l as [|[]]; simpl; try lia. destruct (Z.even m); lia.
Qed.

Lemma fexp_ge (x : Z) : x - 53 <= fexp prec emax x.
Proof. unfold fexp, prec. lia. Qed.

Lemma shiftr_small (m k : Z) :
  0 < m -> 0 <= k -> Z.log2 m - 52 <= k -> Z.shiftr m k < 2 ^ 53.
Proof.
  intros Hm Hk H. rewrite Z.shiftr_div_pow2 by lia.
  apply Z.div_lt_upper_bound; [apply Z.pow_pos_nonneg; lia|].
  rewrite <- Z.pow_add_r by lia.
  apply Z.log2_lt_pow2; lia.
Qed.

Lemma pos_iter_xO (p k : positive) :
  Z.pos (Pos.iter xO p k) = Z.pos p * 2 ^ Z.pos k.
Proof.
  induction k as [|k IH] using Pos.peano_ind.
  - simpl. lia.
  - rewrite Pos.iter_succ, Pos2Z.inj_succ, Z.pow_succ_r by lia.
    rewrite Pos2Z.inj_xO, IH. lia.
Qed.

(** *** Rounded results are bounded *)

Lemma valid_bounded (f : spec_float) : fvalid f = true -> fbounded f.
Proof.
  destruct f as [s|s| |s m e]; unfold fvalid, valid_binary, fbounded; trivial.
  unfold bounded, canonical_mantissa. intros H.
  apply andb_true_iff in H. destruct H as [H1 H2].
  apply Z.eqb_eq in H1. apply Z.leb_le in H2.
  pose proof (fexp_ge (Z.pos (digits2_pos m) + e)) as G.
  split; [|unfold emax, prec in H2; lia].
  apply Z.log2_lt_pow2; [lia|].
  pose proof (Zdigits2_log2 (Z.pos m) ltac:(lia)) as D. unfold Zdigits2 in D. lia.
Qed.

Lemma binary_round_aux_bounded (s : bool) (m e : Z) (l : location) :
  0 <= m -> fbounded (binary_round_aux prec emax s m e l).
Proof.
  intros Hm. unfold binary_round_aux.
  pose proof (shr_fexp_spec m e l Hm) as [E1 M1].
  destruct (shr_fexp prec emax m e l) as [mrs' e'] eqn:S1. simpl in E1, M1.
  set (m1 := round_nearest_even (shr_m mrs') (loc_of_shr_record mrs')).
  assert (H1 : 0 <= m1).
  { pose proof (round_nearest_even_range (shr_m mrs') (loc_of_shr_record mrs')).
    assert (0 <= shr_m mrs') by (rewrite M1; apply Z.shiftr_nonneg; lia).
    unfold m1; lia. }
  clearbody m1.
  pose proof (shr_fexp_spec m1 e' loc_Exact H1) as [E2 M2].
  destruct (shr_fexp prec emax m1 e' loc_Exact) as [mrs'' e''] eqn:S2.
  simpl in E2, M2.
  destruct (shr_m mrs'') as [|p|p] eqn:P; unfold fbounded; trivial.
  destruct (e'' <=? emax - prec) eqn:L; trivial.
  apply Z.leb_le in L. split; [|unfold emax, prec in L; lia].
  assert (Hpos : 0 < m1).
  { destruct (Z.eq_dec m1 0) as [Hz|]; [|lia].
    rewrite Hz, Z.shiftr_0_l in M2. discriminate M2. }
  rewrite M2. apply shiftr_small; [exact Hpos | lia |].
  pose proof (fexp_ge (Zdigits2 m1 + e')) as G.
  rewrite (Zdigits2_log2 m1 Hpos) in G, E2. lia.
Qed.

Lemma binary_normalize_bounded (m e : Z) (sz : bool) :
  fbounded (binary_normalize prec emax m e sz).
Proof.
  destruct m as [|p|p]; unfold binary_normalize; [exact I| |]; unfold binary_round;
    destruct (shl_align _ _ _) as [mz ez]; apply binary_round_aux_bounded; lia.
Qed.

Lemma fadd_bounded (f g : spec_float) :
  fbounded f -> fbounded g -> fbounded (fadd f g).
Proof.
  intros Hf Hg. unfold fadd.
  destruct f as [s|s| |s m e], g as [s'|s'| |s' m' e']; unfold SFadd;
    try exact I; try exact Hf; try exact Hg;
    try (destruct s, s'; exact I).
  apply binary_normalize_bounded.
Qed.

Lemma float_of_int_bounded (z : Z) (f : spec_float) :
  float_of_int z = Return f -> fbounded f.
Proof.
  unfold float_of_int. pose proof (binary_normalize_bounded z 0 false) as B.
  destruct (binary_normalize prec emax z 0 false); intros H; inversion H; subst;
    exact B.
Qed.

(** *** Which integers convert *)

(** Rounding a mantissa whose magnitude stays below [2 ^ 1024] (and, at
    1024 bits, does not round up to it) never yields an infinity. *)
Lemma binary_round_aux_finite (s : bool) (mz : positive) (ez : Z) :
  let d := Zdigits2 (Z.pos mz) + ez in
  1 <= d -> ez <= d - 53 ->
  d <= 1023 \/ (d = 1024 /\ Z.shiftr (Z.pos mz) (971 - ez) <= 2 ^ 53 - 2) ->
  is_infinity (binary_round_aux prec emax s (Z.pos mz) ez loc_Exact) = false.
Proof.
  intros d Hd Hez Hcase. unfold binary_round_aux.
  pose proof (shr_fexp_spec (Z.pos mz) ez loc_Exact ltac:(lia)) as [E1 M1].
  destruct (shr_fexp prec emax (Z.pos mz) ez loc_Exact) as [mrs' e'] eqn:S1.
  simpl fst in *; simpl snd in *. fold d in E1.
  assert (F1 : fexp prec emax d = d - 53) by (unfold fexp, emin, prec, emax; lia).
  rewrite F1 in E1. assert (E1' : e' = d - 53) by lia. clear E1.
  set (m1 := round_nearest_even (shr_m mrs') (loc_of_shr_record mrs')).
  pose proof (round_nearest_even_range (shr_m mrs') (loc_of_shr_record mrs')) as R.
  fold m1 in R.
  assert (Hm' : 0 <= shr_m mrs' < 2 ^ 53).
  { rewrite M1. split; [apply Z.shiftr_nonneg; lia|].
    rewrite Z.shiftr_div_pow2 by lia.
    apply Z.div_lt_upper_bound; [apply Z.pow_pos_nonneg; lia|].
    rewrite <- Z.pow_add_r by lia.
    apply Z.log2_lt_pow2; [lia|].
    pose proof (Zdigits2_log2 (Z.pos mz) ltac:(lia)) as D. lia. }
  clearbody m1.
  pose proof (shr_fexp_spec m1 e' loc_Exact ltac:(lia)) as [E2 M2].
  destruct (shr_fexp prec emax m1 e' loc_Exact) as [mrs'' e''] eqn:S2.
  simpl fst in *; simpl snd in *.
  assert (L : e'' <= 971).
  { destruct Hcase as [Hc|[Hc Hs]].
    - assert (Zdigits2 m1 <= 54) by (apply Zdigits2_le; lia).
      unfold fexp, emin, prec, emax in E2. lia.
    - assert (E971 : e' - ez = 971 - ez) by lia. rewrite E971 in M1.
      assert (Zdigits2 m1 <= 53) by (apply Zdigits2_le; lia).
      unfold fexp, emin, prec, emax in E2. lia. }
  destruct (shr_m mrs''); try reflexivity.
  apply Z.leb_le in L. unfold emax, prec. simpl (1024 - 53). now rewrite L.
Qed.

Lemma float_of_int_max :
  is_infinity (binary_normalize prec emax max_float_int 0 false) = false.
Proof. vm_compute; reflexivity. Qed.

(** Every positive [int] up to the largest finite double converts. *)
Lemma float_of_int_fits (z : Z) :
  0 < z <= max_float_int ->
  exists f, float_of_int z = Return f.
Proof.
  intros [H0 HM].
  assert (I : is_infinity (binary_normalize prec emax z 0 false) = false).
  { destruct (Z.eq_dec z max_float_int) as [->|N]; [apply float_of_int_max|].
    destruct z as [|p|p]; try lia.
    unfold binary_normalize, binary_round, shl_align.
    set (d := Z.pos (digits2_pos p)).
    assert (Hd : d = Z.log2 (Z.pos p) + 1) by (apply (Zdigits2_log2 (Z.pos p)); lia).
    assert (Hd1 : 1 <= d) by (pose proof (Z.log2_nonneg (Z.pos p)); lia).
    assert (Hd2 : d <= 1024).
    { assert (Z.log2 (Z.pos p) < 1024); [|lia].
      apply Z.log2_lt_pow2; [lia|]. unfold max_float_int in HM.
      assert (2 ^ 1024 = 2 ^ 53 * 2 ^ 971)
        by (rewrite <- Z.pow_add_r by lia; reflexivity).
      assert (0 < 2 ^ 971) by (apply Z.pow_pos_nonneg; lia). nia. }
    assert (F : fexp prec emax (d + 0) = d - 53)
      by (unfold fexp, emin, prec, emax; lia).
    rewrite F.
    destruct (d - 53 - 0) as [|k|k] eqn:K.
    - apply binary_round_aux_finite; change (Zdigits2 (Z.pos p)) with d;
        [lia | lia | left; lia].
    - apply binary_round_aux_finite; change (Zdigits2 (Z.pos p)) with d;
        [lia | lia | ].
      destruct (Z.eq_dec d 1024) as [E|E]; [right|left; lia].
      split; [lia|]. rewrite Z.sub_0_r, Z.shiftr_div_pow2 by lia.
      assert (P971 : 0 < 2 ^ 971) by (apply Z.pow_pos_nonneg; lia).
      assert (Z.pos p / 2 ^ 971 < 2 ^ 53 - 1); [|lia].
      apply Z.div_lt_upper_bound; [exact P971|].
      unfold max_float_int in *. lia.
    - assert (Hm : Zdigits2 (Z.pos (Pos.iter xO p k)) = d + Z.pos k).
      { rewrite Zdigits2_log2 by lia. rewrite pos_iter_xO, Z.log2_mul_pow2 by lia. lia. }
      apply binary_round_aux_finite; rewrite Hm; [lia | lia | left; lia]. }
  unfold float_of_int.
  destruct (binary_normalize prec emax z 0 false); try discriminate I; eauto.
Qed.

Lemma max_float_int_ge : 2 ^ 53 - 1 <= max_float_int.
Proof.
  unfold max_float_int.
  assert (0 < 2 ^ 971) by (apply Z.pow_pos_nonneg; lia).
  assert (0 < 2 ^ 53) by (apply Z.pow_pos_nonneg; lia). nia.
Qed.

(** An [int] that compares equal to a double is no larger than the
    largest finite double. *)
Lemma cmp_int_float_eq_bounded (z : Z) (f : spec_float) :
  fbounded f -> cmp_int_float z f = Some Eq -> z <= max_float_int.
Proof.
  pose proof max_float_int_ge as G.
  assert (P53 : 0 < 2 ^ 53) by (apply Z.pow_pos_nonneg; lia).
  destruct f as [s|s| |s m e]; unfold cmp_int_float, fbounded.
  - intros _ H. inversion H as [H']. apply Z.compare_eq_iff in H'. lia.
  - destruct s; discriminate.
  - discriminate.
  - intros [Hm He] H. destruct (0 <=? e) eqn:E.
    + apply Z.leb_le in E. inversion H as [H']. apply Z.compare_eq_iff in H'.
      assert (P : 0 < 2 ^ e) by (apply Z.pow_pos_nonneg; lia).
      assert (Q : 2 ^ e <= 2 ^ 971) by (apply Z.pow_le_mono_r; lia).
      destruct s; unfold cond_Zopp in H'.
      * assert (z <= 0) by nia. lia.
      * unfold max_float_int. subst z.
        apply Z.mul_le_mono_nonneg; lia.
    + apply Z.leb_gt in E. inversion H as [H']. apply Z.compare_eq_iff in H'.
      assert (P : 1 <= 2 ^ (- e)).
      { assert (0 < 2 ^ (- e)) by (apply Z.pow_pos_nonneg; lia). lia. }
      destruct s; unfold cond_Zopp in H'.
      * assert (z <= 0) by nia. lia.
      * assert (z <= Z.pos m) by nia. lia.
Qed.

(** binary64 addition commutes. *)
Lemma fadd_comm (f g : spec_float) : fadd f g = fadd g f.
Proof.
  unfold fadd.
  destruct f as [s|s| |s m e], g as [s'|s'| |s' m' e'];
    try reflexivity; try (destruct s, s'; reflexivity).
  unfold SFadd. now rewrite Z.min_comm, Z.add_comm.
Qed.

End Float64.

Import Float64.

(** ** Facts about the operators *)

(** A generator whose test cannot raise is a plain conjunction. *)
Lemma all_gen_pure {A : Type} (p : A -> bool) (xs : list A) :
  all_gen (fun x => Return (p x)) xs = Return (forallb p xs).
Proof.
  induction xs as [|x xs IH]; simpl; [reflexivity|].
  destruct (p x); simpl; [exact IH | reflexivity].
Qed.

(** Case analysis on the flags of the three operands. *)
Ltac flags x y z :=
  destruct (num_fits x), (num_fits y), (num_fits z), (num_is_int x),
    (num_is_int y), (num_is_int z).

Lemma as_num_of_num (n : num) : as_num (of_num n) = Some n.
Proof. destruct n; reflexivity. Qed.

Lemma numeric_as_num (v : value) :
  numeric v <-> exists n, as_num v = Some n.
Proof.
  unfold numeric; split.
  - destruct v; simpl; intros H; try discriminate; eauto.
  - intros [n H]; destruct v; simpl in *; congruence.
Qed.

Lemma not_numeric_as_num (v : value) :
  isinstance_int_float v = false <-> as_num v = None.
Proof. destruct v; simpl; split; congruence. Qed.

Lemma py_gt_num (a b : value) (x y : num) :
  as_num a = Some x -> as_num b = Some y -> py_gt a b = Return (num_gt x y).
Proof. intros Ha Hb; unfold py_gt, lift2; now rewrite Ha, Hb. Qed.

Lemma py_eq_num (a b : value) (x y : num) :
  as_num a = Some x -> as_num b = Some y -> py_eq a b = Return (num_eq x y).
Proof. intros Ha Hb; unfold py_eq, lift2; now rewrite Ha, Hb. Qed.

Lemma py_add_num (a b : value) (x y : num) :
  as_num a = Some x -> as_num b = Some y ->
  py_add a b = (r <- num_add x y ;; Return (of_num r)).
Proof. intros Ha Hb; unfold py_add, lift2; now rewrite Ha, Hb. Qed.

Lemma sum_gt_num (a b c : value) (x y z : num) :
  as_num a = Some x -> as_num b = Some y -> as_num c = Some z ->
  sum_gt a b c = (s <- num_add x y ;; Return (num_gt s z)).
Proof.
  intros Ha Hb Hc; unfold sum_gt; rewrite (py_add_num _ _ _ _ Ha Hb).
  destruct (num_add x y) as [s|e]; simpl; [|reflexivity].
  apply py_gt_num; [apply as_num_of_num | exact Hc].
Qed.

Lemma sum_eq_num (a b c : value) (x y z : num) :
  as_num a = Some x -> as_num b = Some y -> as_num c = Some z ->
  sum_eq a b c = (s <- num_add x y ;; Return (num_eq s z)).
Proof.
  intros Ha Hb Hc; unfold sum_eq; rewrite (py_add_num _ _ _ _ Ha Hb).
  destruct (num_add x y) as [s|e]; simpl; [|reflexivity].
  apply py_eq_num; [apply as_num_of_num | exact Hc].
Qed.

Lemma num_gt_int (p q : Z) : num_gt (NInt p) (NInt q) = (q <? p).
Proof.
  unfold num_gt; simpl.
  destruct (Z.compare_spec p q), (Z.ltb_spec q p); try reflexivity; lia.
Qed.

Lemma num_lt_int (p q : Z) : num_lt (NInt p) (NInt q) = (p <? q).
Proof.
  unfold num_lt; simpl.
  destruct (Z.compare_spec p q), (Z.ltb_spec p q); try reflexivity; lia.
Qed.

Lemma num_positive_int (z : Z) : num_positive (NInt z) = true -> 0 < z.
Proof. unfold num_positive. rewrite num_gt_int. apply Z.ltb_lt. Qed.

Lemma num_eq_int_float (z : Z) (f : spec_float) :
  num_eq (NInt z) (NFloat f) = true -> cmp_int_float z f = Some Eq.
Proof.
  unfold num_eq; simpl. destruct (cmp_int_float z f) as [[]|]; congruence.
Qed.

Lemma num_eq_float_int (z : Z) (f : spec_float) :
  num_eq (NFloat f) (NInt z) = true -> cmp_int_float z f = Some Eq.
Proof.
  unfold num_eq; simpl. destruct (cmp_int_float z f) as [[]|]; simpl; congruence.
Qed.

Lemma num_eq_not_gt (x y : num) : num_eq x y = true -> num_gt x y = false.
Proof.
  unfold num_eq, num_gt. destruct (num_compare x y) as [[]|]; congruence.
Qed.

(** The code's test [side > 0] decides strict positivity. *)
Lemma num_positive_spec (v : value) (n : num) :
  as_num v = Some n -> num_positive n = strictly_positive v.
Proof.
  destruct v as [|b|z|f|s|l|l]; simpl; intros H; inversion H; subst; clear H.
  - destruct b; reflexivity.
  - unfold num_positive, num_gt; simpl.
    destruct (Z.compare_spec z 0), (Z.ltb_spec 0 z); try reflexivity; lia.
  - unfold num_positive, num_gt, num_compare, cmp_int_float, option_map,
      strictly_positive.
    destruct f as [s|s| |s m e]; try (destruct s; reflexivity); try reflexivity.
    destruct (0 <=? e) eqn:He.
    + apply Z.leb_le in He.
      assert (0 < 2 ^ e) by (apply Z.pow_pos_nonneg; lia).
      destruct s; unfold cond_Zopp.
      * assert (Hc : (0 ?= - Z.pos m * 2 ^ e) = Gt) by (apply Z.compare_gt_iff; nia).
        now rewrite Hc.
      * assert (Hc : (0 ?= Z.pos m * 2 ^ e) = Lt) by (apply Z.compare_lt_iff; nia).
        now rewrite Hc.
    + destruct s; reflexivity.
Qed.

(** Positive and non-positive exclude each other; a NaN is neither. *)
Lemma zero_or_negative_not_positive (v : value) :
  zero_or_negative v = true -> strictly_positive v = false.
Proof.
  destruct v as [|b|z|f|s|l|l]; simpl; try reflexivity.
  - now destruct b.
  - intros H; apply Z.leb_le in H; apply Z.ltb_ge; exact H.
  - destruct f as [s|s| |s m e]; try destruct s; simpl; congruence.
Qed.

Lemma is_int_as_num (v : value) :
  is_int v = true -> strictly_positive v = true ->
  exists z, as_num v = Some (NInt z) /\ 0 < z.
Proof.
  destruct v as [|b|z|f|s|l|l]; simpl; try discriminate.
  - intros _ ->. exists 1. split; [reflexivity | lia].
  - intros _ H. apply Z.ltb_lt in H. eauto.
Qed.

(** *** Addition: errors, overflow, commutativity, magnitude *)

Lemma float_of_int_raises (z : Z) (e : exn) :
  float_of_int z = Raise e -> e = OverflowError overflow_msg.
Proof.
  unfold float_of_int.
  destruct (binary_normalize prec emax z 0 false); intros H;
    try discriminate; inversion H; reflexivity.
Qed.

Lemma num_add_raises (x y : num) (e : exn) :
  num_add x y = Raise e -> e = OverflowError overflow_msg.
Proof.
  destruct x as [a|f], y as [b|g]; simpl; try discriminate.
  - destruct (float_of_int a) eqn:H; simpl; [discriminate|].
    intros E; inversion E; subst. eapply float_of_int_raises; eauto.
  - destruct (float_of_int b) eqn:H; simpl; [discriminate|].
    intros E; inversion E; subst. eapply float_of_int_raises; eauto.
Qed.

Lemma num_add_safe (x y : num) :
  (num_fits x && num_fits y) || (num_is_int x && num_is_int y) = true ->
  exists s, num_add x y = Return s.
Proof.
  destruct x as [a|f], y as [b|g]; simpl; eauto.
  - destruct (float_of_int a); simpl; eauto. discriminate.
  - destruct (float_of_int b); simpl; eauto. discriminate.
Qed.

Lemma num_add_comm (x y : num) : num_add x y = num_add y x.
Proof.
  destruct x as [a|f], y as [b|g]; simpl.
  - now rewrite Z.add_comm.
  - destruct (float_of_int a); simpl; [now rewrite fadd_comm|reflexivity].
  - destruct (float_of_int b); simpl; [now rewrite fadd_comm|reflexivity].
  - now rewrite fadd_comm.
Qed.

Lemma sum_gtb_comm (x y z : num) : sum_gtb x y z = sum_gtb y x z.
Proof. unfold sum_gtb. now rewrite num_add_comm. Qed.

Lemma num_add_bounded (x y s : num) :
  num_bounded x -> num_bounded y -> num_add x y = Return s -> num_bounded s.
Proof.
  destruct x as [a|f], y as [b|g]; simpl; intros Bx By H.
  - inversion H; subst; exact I.
  - destruct (float_of_int a) as [fa|] eqn:E; simpl in H; inversion H; subst.
    apply fadd_bounded; [eapply float_of_int_bounded; eauto | exact By].
  - destruct (float_of_int b) as [fb|] eqn:E; simpl in H; inversion H; subst.
    apply fadd_bounded; [exact Bx | eapply float_of_int_bounded; eauto].
  - inversion H; subst. now apply fadd_bounded.
Qed.

(** If [p + q == r] then [r + p] does not overflow: an [int] that equals
    a double, or that is below one, converts. *)
(** If [p + q == r] then [r + p] does not overflow. *)
Lemma sum_partner_fits (p q r s : num) :
  num_bounded p -> num_bounded q -> num_bounded r ->
  num_positive p = true -> num_positive q = true -> num_positive r = true ->
  num_add p q = Return s -> num_eq s r = true ->
  exists t, num_add r p = Return t.
Proof.
  intros Bp Bq Br Pp Pq Pr Hs He.
  pose proof (num_add_bounded _ _ _ Bp Bq Hs) as Bs.
  destruct r as [h|rf], p as [a|f]; simpl; eauto.
  - (* r is an int, p a float: the sum is a float equal to r *)
    apply num_positive_int in Pr.
    assert (Hfit : exists g, float_of_int h = Return g).
    { apply float_of_int_fits. split; [exact Pr|].
      destruct s as [sz|sf].
      - destruct q as [b|g]; simpl in Hs.
        + destruct (float_of_int b); simpl in Hs; discriminate.
        + discriminate.
      - apply num_eq_float_int in He.
        eapply cmp_int_float_eq_bounded; eauto. }
    destruct Hfit as [g ->]. simpl. eauto.
  - (* r is a float, p an int *)
    apply num_positive_int in Pp.
    assert (Hfit : exists g, float_of_int a = Return g).
    { destruct q as [b|g]; simpl in Hs.
      - inversion Hs; subst. apply num_positive_int in Pq.
        apply num_eq_int_float in He.
        apply float_of_int_fits. split; [exact Pp|].
        pose proof (cmp_int_float_eq_bounded _ _ Br He). lia.
      - destruct (float_of_int a); simpl in Hs; [eauto|discriminate]. }
    destruct Hfit as [g ->]. simpl. eauto.
Qed.

(** ** The function on numbers *)

(** After the type gate the function works on numbers only: no operator of
    the body is ever applied to a non-numeric operand. *)
Lemma operators_see_numbers_only (a b c : value) (x y z : num) :
  as_num a = Some x -> as_num b = Some y -> as_num c = Some z ->
  can_form_triangle a b c =
    if num_positive x && num_positive y && num_positive z
    then triangle_num x y z
    else Raise (ValueError value_error_msg).
Proof.
  intros Ha Hb Hc. unfold can_form_triangle.
  assert (Hn : forall v n, as_num v = Some n -> isinstance_int_float v = true).
  { intros v n H; apply numeric_as_num; eauto. }
  rewrite all_gen_pure. simpl forallb.
  rewrite (Hn _ _ Ha), (Hn _ _ Hb), (Hn _ _ Hc). simpl andb. cbn [bind negb].
  assert (H0 : as_num (PyInt 0) = Some (NInt 0)) by reflexivity.
  simpl all_gen.
  rewrite (py_gt_num _ _ _ _ Ha H0), (py_gt_num _ _ _ _ Hb H0), (py_gt_num _ _ _ _ Hc H0).
  fold (num_positive x) (num_positive y) (num_positive z).
  fold (sum_gt a b c) (sum_gt a c b) (sum_gt b c a).
  rewrite (sum_gt_num _ _ _ _ _ _ Ha Hb Hc), (sum_gt_num _ _ _ _ _ _ Ha Hc Hb),
          (sum_gt_num _ _ _ _ _ _ Hb Hc Ha).
  unfold triangle_num.
  destruct (num_positive x), (num_positive y), (num_positive z); reflexivity.
Qed.

(** The type gate. *)
Lemma type_gate (a b c : value) :
  forallb isinstance_int_float [a; b; c] = false ->
  can_form_triangle a b c = Raise (TypeError type_error_msg).
Proof. intros H; unfold can_form_triangle; now rewrite all_gen_pure, H. Qed.

Lemma can_form_triangle_view (a b c : value) :
  can_form_triangle a b c = cft_view (as_num a) (as_num b) (as_num c).
Proof.
  destruct (as_num a) as [x|] eqn:Ha; [destruct (as_num b) as [y|] eqn:Hb;
    [destruct (as_num c) as [z|] eqn:Hc|]|].
  - now apply operators_see_numbers_only.
  - apply type_gate. apply not_numeric_as_num in Hc. simpl. rewrite Hc.
    now rewrite !andb_false_r.
  - apply type_gate. apply not_numeric_as_num in Hb. simpl. rewrite Hb.
    now rewrite andb_false_r.
  - apply type_gate. apply not_numeric_as_num in Ha. simpl. now rewrite Ha.
Qed.

Lemma triangle_num_outcome (x y z : num) :
  (exists r, triangle_num x y z = Return r)
  \/ triangle_num x y z = Raise (OverflowError overflow_msg).
Proof.
  unfold triangle_num.
  destruct (num_add x y) as [s1|e1] eqn:H1; simpl;
    [|right; now rewrite (num_add_raises _ _ _ H1)].
  destruct (num_gt s1 z); simpl; [|left; eauto].
  destruct (num_add x z) as [s2|e2] eqn:H2; simpl;
    [|right; now rewrite (num_add_raises _ _ _ H2)].
  destruct (num_gt s2 y); simpl; [|left; eauto].
  destruct (num_add y z) as [s3|e3] eqn:H3; simpl;
    [left; eauto|right; now rewrite (num_add_raises _ _ _ H3)].
Qed.

Lemma triangle_num_safe (x y z : num) :
  arith_safe x y z = true ->
  triangle_num x y z = Return (sum_gtb x y z && sum_gtb x z y && sum_gtb y z x).
Proof.
  intros H. unfold arith_safe in H.
  assert (Hxy : exists s, num_add x y = Return s).
  { apply num_add_safe.
    flags x y z; simpl in *; congruence. }
  assert (Hxz : exists s, num_add x z = Return s).
  { apply num_add_safe.
    flags x y z; simpl in *; congruence. }
  assert (Hyz : exists s, num_add y z = Return s).
  { apply num_add_safe.
    flags x y z; simpl in *; congruence. }
  destruct Hxy as [s1 H1], Hxz as [s2 H2], Hyz as [s3 H3].
  unfold triangle_num, sum_gtb. rewrite H1, H2, H3. simpl.
  destruct (num_gt s1 z), (num_gt s2 y); reflexivity.
Qed.

Lemma arith_safe_swap12 (x y z : num) : arith_safe x y z = arith_safe y x z.
Proof.
  unfold arith_safe.
  flags x y z; reflexivity.
Qed.

Lemma arith_safe_swap23 (x y z : num) : arith_safe x y z = arith_safe x z y.
Proof.
  unfold arith_safe.
  flags x y z; reflexivity.
Qed.

Lemma cft_view_safe (oa ob oc : option num) :
  match oa, ob, oc with
  | Some x, Some y, Some z => arith_safe x y z = true
  | _, _, _ => True
  end ->
  cft_view oa ob oc =
  match oa, ob, oc with
  | Some x, Some y, Some z =>
      if num_positive x && num_positive y && num_positive z
      then Return (sum_gtb x y z && sum_gtb x z y && sum_gtb y z x)
      else Raise (ValueError value_error_msg)
  | _, _, _ => Raise (TypeError type_error_msg)
  end.
Proof.
  destruct oa as [x|], ob as [y|], oc as [z|]; simpl; try reflexivity.
  intros H. now rewrite (triangle_num_safe _ _ _ H).
Qed.

Lemma no_mixed_overflow_swap12 (a b c : value) :
  no_mixed_overflow a b c = no_mixed_overflow b a c.
Proof.
  unfold no_mixed_overflow.
  destruct (as_num a), (as_num b), (as_num c); trivial. apply arith_safe_swap12.
Qed.

Lemma no_mixed_overflow_swap23 (a b c : value) :
  no_mixed_overflow a b c = no_mixed_overflow a c b.
Proof.
  unfold no_mixed_overflow.
  destruct (as_num a), (as_num b), (as_num c); trivial. apply arith_safe_swap23.
Qed.

Lemma can_form_triangle_int (a b c : value) (x y z : Z) :
  as_num a = Some (NInt x) -> as_num b = Some (NInt y) ->
  as_num c = Some (NInt z) -> 0 < x -> 0 < y -> 0 < z ->
  can_form_triangle a b c
  = Return ((z <? x + y) && (y <? x + z) && (x <? y + z)).
Proof.
  intros Ha Hb Hc Px Py Pz.
  rewrite (operators_see_numbers_only _ _ _ _ _ _ Ha Hb Hc).
  unfold num_positive. rewrite !num_gt_int.
  apply Z.ltb_lt in Px, Py, Pz. rewrite Px, Py, Pz. simpl.
  unfold triangle_num. simpl. rewrite !num_gt_int.
  destruct (z <? x + y), (y <? x + z); reflexivity.
Qed.

Lemma max_formulation_int (a b c : value) (x y z : Z) :
  as_num a = Some (NInt x) -> as_num b = Some (NInt y) ->
  as_num c = Some (NInt z) ->
  max_formulation a b c = Return (2 * Z.max x (Z.max y z) <? x + y + z).
Proof.
  intros Ha Hb Hc. unfold max_formulation, py_max3.
  rewrite (py_gt_num _ _ _ _ Hb Ha), num_gt_int. simpl bind.
  assert (Hm : as_num (if x <? y then b else a) = Some (NInt (Z.max x y))).
  { destruct (Z.ltb_spec x y).
    - now rewrite Z.max_r by lia.
    - now rewrite Z.max_l by lia. }
  rewrite (py_gt_num _ _ _ _ Hc Hm), num_gt_int. simpl bind.
  assert (Hm' : as_num (if Z.max x y <? z then c
                        else if x <? y then b else a)
                = Some (NInt (Z.max x (Z.max y z)))).
  { destruct (Z.ltb_spec (Z.max x y) z).
    - rewrite Hc. do 2 f_equal. lia.
    - rewrite Hm. do 2 f_equal. lia. }
  unfold py_mul, py_add, py_lt, lift2.
  simpl (as_num (PyInt 2)). rewrite Hm', Ha, Hb. simpl. rewrite Hc. simpl.
  now rewrite num_lt_int.
Qed.

(** A degenerate triple of numbers is rejected, and no sum overflows on
    the way to the conjunct that fails. *)
Lemma degenerate_num (x y z : num) :
  num_bounded x -> num_bounded y -> num_bounded z ->
  num_positive x = true -> num_positive y = true -> num_positive z = true ->
  sum_eqb x y z = true \/ sum_eqb x z y = true \/ sum_eqb y z x = true ->
  triangle_num x y z = Return false.
Proof.
  intros Bx By Bz Px Py Pz H. unfold triangle_num, sum_eqb in *.
  destruct H as [H|[H|H]].
  - destruct (num_add x y) as [s|]; [|discriminate]. simpl.
    now rewrite (num_eq_not_gt _ _ H).
  - destruct (num_add x z) as [s2|] eqn:E2; [|discriminate].
    destruct (sum_partner_fits x z y s2 Bx Bz By Px Pz Py E2 H) as [t Ht].
    rewrite num_add_comm in Ht. rewrite Ht. simpl.
    destruct (num_gt t z); simpl; [|reflexivity].
    now rewrite (num_eq_not_gt _ _ H).
  - destruct (num_add y z) as [s3|] eqn:E3; [|discriminate].
    destruct (sum_partner_fits y z x s3 By Bz Bx Py Pz Px E3 H) as [t Ht].
    assert (E3' : num_add z y = Return s3) by now rewrite num_add_comm.
    destruct (sum_partner_fits z y x s3 Bz By Bx Pz Py Px E3' H) as [t' Ht'].
    rewrite Ht, Ht'. simpl.
    destruct (num_gt t z); simpl; [|reflexivity].
    destruct (num_gt t' y); simpl; [|reflexivity].
    now rewrite (num_eq_not_gt _ _ H).
Qed.

(** From [numeric] hypotheses to the numbers behind the objects. *)
Ltac to_nums Ha Hb Hc x y z :=
  apply numeric_as_num in Ha, Hb, Hc;
  destruct Ha as [x Ha], Hb as [y Hb], Hc as [z Hc].

Lemma well_formed_bounded (v : value) (n : num) :
  as_num v = Some n -> well_formed v = true -> num_bounded n.
Proof.
  destruct v; simpl; intros H W; inversion H; subst; simpl; trivial.
  now apply valid_bounded.
Qed.

Lemma sum_eq_true_num (a b c : value) (x y z : num) :
  as_num a = Some x -> as_num b = Some y -> as_num c = Some z ->
  sum_eq a b c = Return true -> sum_eqb x y z = true.
Proof.
  intros Ha Hb Hc. rewrite (sum_eq_num _ _ _ _ _ _ Ha Hb Hc). unfold sum_eqb.
  destruct (num_add x y); simpl; congruence.
Qed.

Lemma sum_eqb_comm (x y z : num) : sum_eqb x y z = sum_eqb y x z.
Proof. unfold sum_eqb. now rewrite num_add_comm. Qed.

(** The six arrangements of a triple. *)
Lemma permutation3_cases {A : Type} (a b c a' b' c' : A) :
  Permutation [a; b; c] [a'; b'; c'] ->
  (a', b', c') = (a, b, c) \/ (a', b', c') = (a, c, b)
  \/ (a', b', c') = (b, a, c) \/ (a', b', c') = (b, c, a)
  \/ (a', b', c') = (c, a, b) \/ (a', b', c') = (c, b, a).
Proof.
  intros P.
  destruct (Permutation_vs_cons_inv (Permutation_sym P)) as (l1 & l2 & E).
  rewrite E in P. apply Permutation_cons_app_inv in P.
  apply Permutation_length_2_inv in P.
  destruct l1 as [|u1 [|u2 [|u3 l1]]]; simpl in *.
  - inversion E; subst. destruct P as [P|P]; inversion P; subst; tauto.
  - inversion E; subst. destruct P as [P|P]; inversion P; subst; tauto.
  - inversion E; subst. destruct P as [P|P]; inversion P; subst; tauto.
  - destruct P as [P|P]; inversion P; subst; destruct l1; discriminate.
Qed.

Lemma degenerate_cases (a b c : value) :
  degenerate a b c ->
  sum_eq a b c = Return true \/ sum_eq a c b = Return true
  \/ sum_eq b a c = Return true \/ sum_eq b c a = Return true
  \/ sum_eq c a b = Return true \/ sum_eq c b a = Return true.
Proof.
  intros (u & v & w & P & E).
  destruct (permutation3_cases _ _ _ _ _ _ (Permutation_sym P))
    as [H|[H|[H|[H|[H|H]]]]]; inversion H; subst u v w; tauto.
Qed.

(** ** Every call ends in one of four ways *)

Lemma outcome_taxonomy (a b c : value) :
  (exists r, can_form_triangle a b c = Return r)
  \/ can_form_triangle a b c = Raise (TypeError type_error_msg)
  \/ can_form_triangle a b c = Raise (ValueError value_error_msg)
  \/ can_form_triangle a b c = Raise (OverflowError overflow_msg).
Proof.
  rewrite can_form_triangle_view. unfold cft_view.
  destruct (as_num a) as [x|]; [|tauto].
  destruct (as_num b) as [y|]; [|tauto].
  destruct (as_num c) as [z|]; [|tauto].
  destruct (num_positive x && num_positive y && num_positive z); [|tauto].
  destruct (triangle_num_outcome x y z) as [H|H]; tauto.
Qed.

(** ** Validation *)

(** C3: if any of the three inputs is not numeric, the call raises
    [TypeError] with a message that names "numeric", whatever the other two
    inputs are (non-positive, too large for a float, ...): the type check
    comes before the positivity check and before any arithmetic. *)
Theorem type_gate_precedes_value_gate (a b c : value) :
  ~ numeric a \/ ~ numeric b \/ ~ numeric c ->
  can_form_triangle a b c = Raise (TypeError type_error_msg)
  /\ str_contains "numeric" type_error_msg = true.
Proof.
  intros H. split; [|reflexivity].
  apply type_gate. unfold numeric in H. simpl.
  destruct (isinstance_int_float a), (isinstance_int_float b),
    (isinstance_int_float c); simpl; try reflexivity.
  exfalso; destruct H as [H|[H|H]]; now apply H.
Qed.

Lemma type_gate_precedes_value_gate_witness :
  (~ numeric (PyInt (-1)) \/ ~ numeric PyNone \/ ~ numeric (PyInt 0))
  /\ can_form_triangle (PyInt (-1)) PyNone (PyInt 0)
     = Raise (TypeError type_error_msg)
  /\ str_contains "numeric" type_error_msg = true.
Proof.
  assert (H : ~ numeric (PyInt (-1)) \/ ~ numeric PyNone \/ ~ numeric (PyInt 0)).
  { right; left; unfold numeric; simpl; discriminate. }
  split; [exact H | exact (type_gate_precedes_value_gate _ _ _ H)].
Defined.

(** C2: on numeric inputs, one input that is zero or negative is enough
    for [ValueError], whose message names "positive", whatever the other
    two are; and when all three are strictly positive no [ValueError] is
    raised. *)
Theorem positivity_gate (a b c : value) :
  numeric a -> numeric b -> numeric c ->
  (zero_or_negative a = true \/ zero_or_negative b = true
   \/ zero_or_negative c = true ->
   can_form_triangle a b c = Raise (ValueError value_error_msg)
   /\ str_contains "positive" value_error_msg = true)
  /\ (strictly_positive a = true -> strictly_positive b = true ->
      strictly_positive c = true ->
      forall msg, can_form_triangle a b c <> Raise (ValueError msg)).
Proof.
  intros Ha Hb Hc.
  to_nums Ha Hb Hc x y z.
  rewrite (operators_see_numbers_only _ _ _ _ _ _ Ha Hb Hc).
  rewrite (num_positive_spec _ _ Ha), (num_positive_spec _ _ Hb),
          (num_positive_spec _ _ Hc).
  split.
  - intros H. split; [|reflexivity].
    destruct H as [H|[H|H]]; apply zero_or_negative_not_positive in H;
      rewrite H; simpl; rewrite ?andb_false_r; reflexivity.
  - intros Pa Pb Pc msg. rewrite Pa, Pb, Pc. simpl.
    destruct (triangle_num_outcome x y z) as [[r H]|H]; rewrite H; discriminate.
Qed.

Lemma positivity_gate_witness :
  can_form_triangle (PyInt 0) (PyInt 2) (PyFloat f_2_5)
  = Raise (ValueError value_error_msg)
  /\ (forall msg, can_form_triangle (PyInt 1) (PyInt 2) (PyFloat f_2_5)
                  <> Raise (ValueError msg)).
Proof.
  split.
  - exact (proj1 (proj1 (positivity_gate (PyInt 0) (PyInt 2) (PyFloat f_2_5)
                           eq_refl eq_refl eq_refl) (or_introl eq_refl))).
  - exact (proj2 (positivity_gate (PyInt 1) (PyInt 2) (PyFloat f_2_5)
                    eq_refl eq_refl eq_refl) eq_refl eq_refl eq_refl).
Defined.

(** C9: [bool] is a subclass of [int], so booleans pass the type gate:
    [True] counts as 1 and [False] as 0.  [can_form_triangle(True, True,
    True)] returns [True], [can_form_triangle(False, 2, 3)] raises
    [ValueError], and no call whose three inputs are booleans raises
    [TypeError]. *)
Theorem bool_inputs_pass_type_gate :
  can_form_triangle (PyBool true) (PyBool true) (PyBool true) = Return true
  /\ can_form_triangle (PyBool false) (PyInt 2) (PyInt 3)
     = Raise (ValueError value_error_msg)
  /\ (forall b, numeric (PyBool b) /\ as_num (PyBool b) = Some (NInt (Z.b2z b)))
  /\ (forall b1 b2 b3 msg,
        can_form_triangle (PyBool b1) (PyBool b2) (PyBool b3)
        <> Raise (TypeError msg)).
Proof.
  repeat split.
  intros b1 b2 b3 msg; destruct b1, b2, b3; discriminate.
Qed.

(** ** Concrete scenarios *)

(** Mixed comparisons are exact while mixed addition rounds:
    [2 ** 53 + 1 == 2.0 ** 53] is [False] although [float(2 ** 53 + 1)] is
    [2.0 ** 53]. *)
Lemma mixed_comparison_is_exact :
  py_eq (PyInt (2 ^ 53 + 1)) (PyFloat f_2p53) = Return false
  /\ py_gt (PyInt (2 ^ 53 + 1)) (PyFloat f_2p53) = Return true
  /\ float_of_int (2 ^ 53 + 1) = Return f_2p53
  /\ py_gt (PyFloat f_1_0) (PyInt huge) = Return false.
Proof. repeat split; vm_compute; reflexivity. Qed.

(** The float literals are the doubles Python reads them as. *)
Lemma literals_are_doubles :
  float_of_int 1 = Return f_1_0
  /\ SFdiv prec emax (S754_finite false 3 0) (S754_finite false 2 0) = f_1_5
  /\ SFdiv prec emax (S754_finite false 25 0) (S754_finite false 10 0) = f_2_5
  /\ SFdiv prec emax (S754_finite false 31 0) (S754_finite false 10 0) = f_3_1
  /\ float_of_int (2 ^ 53) = Return f_2p53
  /\ forallb fvalid [f_1_0; f_1_5; f_2_5; f_3_1; f_2p53] = true.
Proof. repeat split; vm_compute; reflexivity. Qed.

(** C7: the scenario table of the specification.  [(3, 4, 5)] and
    [(5, 5, 5)] give [True]; [(1, 2, 5)] and the degenerate [(1, 2, 3)] give
    [False]; [(-1, 2, 3)] and [(0, 2, 3)] raise [ValueError]; [("3", 4, 5)]
    raises [TypeError]; [(1, 2, 2.5)] gives [True] and [(1, 2, 3.1)]
    [False]. *)
Theorem concrete_scenarios :
  can_form_triangle (PyInt 3) (PyInt 4) (PyInt 5) = Return true
  /\ can_form_triangle (PyInt 5) (PyInt 5) (PyInt 5) = Return true
  /\ can_form_triangle (PyInt 1) (PyInt 2) (PyInt 5) = Return false
  /\ can_form_triangle (PyInt 1) (PyInt 2) (PyInt 3) = Return false
  /\ can_form_triangle (PyInt (-1)) (PyInt 2) (PyInt 3)
     = Raise (ValueError value_error_msg)
  /\ can_form_triangle (PyInt 0) (PyInt 2) (PyInt 3)
     = Raise (ValueError value_error_msg)
  /\ can_form_triangle (PyStr "3") (PyInt 4) (PyInt 5)
     = Raise (TypeError type_error_msg)
  /\ can_form_triangle (PyInt 1) (PyInt 2) (PyFloat f_2_5) = Return true
  /\ can_form_triangle (PyInt 1) (PyInt 2) (PyFloat f_3_1) = Return false.
Proof. repeat split; vm_compute; reflexivity. Qed.

(** ** The overflow of mixed arithmetic *)

Lemma huge_does_not_fit :
  float_of_int huge = Raise (OverflowError overflow_msg).
Proof. vm_compute; reflexivity. Qed.

(** C6: the two documented error kinds are not the only way a call can
    end.  [can_form_triangle(10 ** 400, 1.0, 1.0)] passes both gates (its
    inputs are numeric and strictly positive) and then raises
    [OverflowError] from [a + b]; it neither returns a boolean nor raises
    [TypeError] or [ValueError]. *)
Theorem overflow_is_a_third_error_kind :
  numeric (PyInt huge) /\ numeric (PyFloat f_1_0)
  /\ strictly_positive (PyInt huge) = true
  /\ strictly_positive (PyFloat f_1_0) = true
  /\ can_form_triangle (PyInt huge) (PyFloat f_1_0) (PyFloat f_1_0)
     = Raise (OverflowError overflow_msg)
  /\ (forall r, can_form_triangle (PyInt huge) (PyFloat f_1_0) (PyFloat f_1_0)
                <> Return r)
  /\ (forall msg, can_form_triangle (PyInt huge) (PyFloat f_1_0) (PyFloat f_1_0)
                  <> Raise (TypeError msg))
  /\ (forall msg, can_form_triangle (PyInt huge) (PyFloat f_1_0) (PyFloat f_1_0)
                  <> Raise (ValueError msg)).
Proof.
  assert (H : can_form_triangle (PyInt huge) (PyFloat f_1_0) (PyFloat f_1_0)
              = Raise (OverflowError overflow_msg)) by (vm_compute; reflexivity).
  repeat split; try (vm_compute; reflexivity); intros; rewrite H; discriminate.
Qed.

(** ** The triangle inequality *)

(** On numeric, strictly positive inputs the call returns [True] exactly
    when the three native inequalities evaluate to [True]. *)
Lemma returns_true_iff (a b c : value) :
  numeric a -> numeric b -> numeric c ->
  strictly_positive a = true -> strictly_positive b = true ->
  strictly_positive c = true ->
  (can_form_triangle a b c = Return true
   <-> sum_gt a b c = Return true /\ sum_gt a c b = Return true
       /\ sum_gt b c a = Return true).
Proof.
  intros Ha Hb Hc Pa Pb Pc.
  to_nums Ha Hb Hc x y z.
  rewrite (operators_see_numbers_only _ _ _ _ _ _ Ha Hb Hc).
  rewrite (num_positive_spec _ _ Ha), (num_positive_spec _ _ Hb),
          (num_positive_spec _ _ Hc), Pa, Pb, Pc. simpl andb. cbv iota.
  rewrite (sum_gt_num _ _ _ _ _ _ Ha Hb Hc), (sum_gt_num _ _ _ _ _ _ Ha Hc Hb),
          (sum_gt_num _ _ _ _ _ _ Hb Hc Ha).
  unfold triangle_num.
  destruct (num_add x y) as [s1|e1]; simpl; [|split; [|intros [? _]]; discriminate].
  destruct (num_gt s1 z); simpl; [|split; [|intros [? _]]; discriminate].
  destruct (num_add x z) as [s2|e2]; simpl; [|split; [|intros [_ [? _]]]; discriminate].
  destruct (num_gt s2 y); simpl; [|split; [|intros [_ [? _]]]; discriminate].
  destruct (num_add y z) as [s3|e3]; simpl; tauto.
Qed.

(** ... and where the mixed arithmetic cannot overflow it returns [False]
    otherwise. *)
Lemma returns_false_otherwise_when_no_overflow (a b c : value) :
  numeric a -> numeric b -> numeric c ->
  strictly_positive a = true -> strictly_positive b = true ->
  strictly_positive c = true ->
  no_mixed_overflow a b c = true ->
  ~ (sum_gt a b c = Return true /\ sum_gt a c b = Return true
     /\ sum_gt b c a = Return true) ->
  can_form_triangle a b c = Return false.
Proof.
  intros Ha Hb Hc Pa Pb Pc S N.
  rewrite <- (returns_true_iff a b c Ha Hb Hc Pa Pb Pc) in N.
  to_nums Ha Hb Hc x y z.
  unfold no_mixed_overflow in S. rewrite Ha, Hb, Hc in S.
  rewrite (operators_see_numbers_only _ _ _ _ _ _ Ha Hb Hc) in *.
  rewrite (num_positive_spec _ _ Ha), (num_positive_spec _ _ Hb),
          (num_positive_spec _ _ Hc), Pa, Pb, Pc in *. simpl andb in *. cbv iota in *.
  rewrite (triangle_num_safe _ _ _ S) in *.
  destruct (sum_gtb x y z && sum_gtb x z y && sum_gtb y z x); congruence.
Qed.

(** C1: on numeric, strictly positive inputs the call is to return [True]
    when the three inequalities hold and [False] otherwise.  At
    [(10 ** 400, 1.0, 1.0)] the inequality [b + c > a] evaluates to [False]
    (these sides form no triangle), yet the call does not return [False]:
    [a + b] is evaluated first and raises [OverflowError]. *)
Theorem inequality_chain_raises_on_overflow :
  numeric (PyInt huge) /\ numeric (PyFloat f_1_0)
  /\ strictly_positive (PyInt huge) = true
  /\ strictly_positive (PyFloat f_1_0) = true
  /\ sum_gt (PyFloat f_1_0) (PyFloat f_1_0) (PyInt huge) = Return false
  /\ can_form_triangle (PyInt huge) (PyFloat f_1_0) (PyFloat f_1_0)
     <> Return false
  /\ can_form_triangle (PyInt huge) (PyFloat f_1_0) (PyFloat f_1_0)
     = Raise (OverflowError overflow_msg).
Proof.
  assert (H : can_form_triangle (PyInt huge) (PyFloat f_1_0) (PyFloat f_1_0)
              = Raise (OverflowError overflow_msg)) by (vm_compute; reflexivity).
  repeat split; try (vm_compute; reflexivity). rewrite H; discriminate.
Qed.

(** ** Symmetry *)

(** Exchanging the first two, or the last two, arguments. *)
Lemma swap12_when_safe (a b c : value) :
  no_mixed_overflow a b c = true ->
  can_form_triangle a b c = can_form_triangle b a c.
Proof.
  unfold no_mixed_overflow. intros H.
  rewrite !can_form_triangle_view.
  rewrite (cft_view_safe (as_num a) (as_num b) (as_num c)),
          (cft_view_safe (as_num b) (as_num a) (as_num c)).
  - destruct (as_num a) as [x|], (as_num b) as [y|], (as_num c) as [z|];
      try reflexivity.
    rewrite (sum_gtb_comm y x z).
    destruct (num_positive x), (num_positive y), (num_positive z),
      (sum_gtb x y z), (sum_gtb x z y), (sum_gtb y z x); reflexivity.
  - destruct (as_num a) as [x|], (as_num b) as [y|], (as_num c) as [z|]; trivial.
    now rewrite arith_safe_swap12.
  - destruct (as_num a) as [x|], (as_num b) as [y|], (as_num c) as [z|]; trivial.
Qed.

Lemma swap23_when_safe (a b c : value) :
  no_mixed_overflow a b c = true ->
  can_form_triangle a b c = can_form_triangle a c b.
Proof.
  unfold no_mixed_overflow. intros H.
  rewrite !can_form_triangle_view.
  rewrite (cft_view_safe (as_num a) (as_num b) (as_num c)),
          (cft_view_safe (as_num a) (as_num c) (as_num b)).
  - destruct (as_num a) as [x|], (as_num b) as [y|], (as_num c) as [z|];
      try reflexivity.
    rewrite (sum_gtb_comm z y x).
    destruct (num_positive x), (num_positive y), (num_positive z),
      (sum_gtb x y z), (sum_gtb x z y), (sum_gtb y z x); reflexivity.
  - destruct (as_num a) as [x|], (as_num b) as [y|], (as_num c) as [z|]; trivial.
    now rewrite arith_safe_swap23.
  - destruct (as_num a) as [x|], (as_num b) as [y|], (as_num c) as [z|]; trivial.
Qed.

(** Symmetry wherever the mixed arithmetic cannot overflow: all [int]
    operands fit a double, or no operand is a [float]. *)
Lemma symmetric_when_no_overflow (a b c a' b' c' : value) :
  Permutation [a; b; c] [a'; b'; c'] ->
  no_mixed_overflow a b c = true ->
  can_form_triangle a' b' c' = can_form_triangle a b c.
Proof.
  intros P H.
  destruct (permutation3_cases _ _ _ _ _ _ P) as [E|[E|[E|[E|[E|E]]]]];
    inversion E; subst; clear E.
  - reflexivity.
  - symmetry; now apply swap23_when_safe.
  - symmetry; now apply swap12_when_safe.
  - assert (H1 : no_mixed_overflow b a c = true)
      by now rewrite no_mixed_overflow_swap12.
    now rewrite (swap12_when_safe a b c H), (swap23_when_safe b a c H1).
  - assert (H1 : no_mixed_overflow a c b = true)
      by now rewrite no_mixed_overflow_swap23.
    now rewrite (swap23_when_safe a b c H), (swap12_when_safe a c b H1).
  - assert (H1 : no_mixed_overflow b a c = true)
      by now rewrite no_mixed_overflow_swap12.
    assert (H2 : no_mixed_overflow b c a = true)
      by now rewrite no_mixed_overflow_swap23.
    now rewrite (swap12_when_safe a b c H), (swap23_when_safe b a c H1),
                (swap12_when_safe b c a H2).
Qed.

(** C4: the outcome is to be the same for every arrangement of the three
    arguments.  [(1.0, 1.0, 10 ** 400)] returns [False] (its first
    conjunct [1.0 + 1.0 > 10 ** 400] is an exact comparison and fails),
    while the arrangement [(10 ** 400, 1.0, 1.0)] of the same sides raises
    [OverflowError]. *)
Theorem order_matters_on_overflow :
  Permutation [PyInt huge; PyFloat f_1_0; PyFloat f_1_0]
              [PyFloat f_1_0; PyFloat f_1_0; PyInt huge]
  /\ strictly_positive (PyInt huge) = true
  /\ strictly_positive (PyFloat f_1_0) = true
  /\ can_form_triangle (PyFloat f_1_0) (PyFloat f_1_0) (PyInt huge)
     = Return false
  /\ can_form_triangle (PyInt huge) (PyFloat f_1_0) (PyFloat f_1_0)
     = Raise (OverflowError overflow_msg).
Proof.
  repeat split; try (vm_compute; reflexivity).
  apply (Permutation_cons_app [PyFloat f_1_0; PyFloat f_1_0] [] (PyInt huge)).
  apply Permutation_refl.
Qed.

(** ** Degenerate triangles *)

(** C5: a numeric, strictly positive triple in which one side equals the
    sum of the other two ([x + y == z] for some arrangement of the sides,
    in the operands' native arithmetic) is rejected: the call returns
    [False].  In particular no such triple runs into the overflow of mixed
    arithmetic. *)
Theorem degenerate_rejected (a b c : value) :
  numeric a -> numeric b -> numeric c ->
  well_formed a = true -> well_formed b = true -> well_formed c = true ->
  strictly_positive a = true -> strictly_positive b = true ->
  strictly_positive c = true ->
  degenerate a b c ->
  can_form_triangle a b c = Return false.
Proof.
  intros Ha Hb Hc Wa Wb Wc Pa Pb Pc D.
  apply degenerate_cases in D.
  to_nums Ha Hb Hc x y z.
  rewrite (operators_see_numbers_only _ _ _ _ _ _ Ha Hb Hc).
  pose proof (num_positive_spec _ _ Ha) as Px.
  pose proof (num_positive_spec _ _ Hb) as Py.
  pose proof (num_positive_spec _ _ Hc) as Pz.
  rewrite Pa in Px. rewrite Pb in Py. rewrite Pc in Pz.
  rewrite Px, Py, Pz. simpl andb. cbv iota.
  apply degenerate_num; eauto using well_formed_bounded.
  destruct D as [D|[D|[D|[D|[D|D]]]]].
  - left. eapply sum_eq_true_num; eauto.
  - right; left. eapply sum_eq_true_num; eauto.
  - left. rewrite sum_eqb_comm. eapply sum_eq_true_num; eauto.
  - right; right. eapply sum_eq_true_num; eauto.
  - right; left. rewrite sum_eqb_comm. eapply sum_eq_true_num; eauto.
  - right; right. rewrite sum_eqb_comm. eapply sum_eq_true_num; eauto.
Qed.

Lemma degenerate_rejected_witness :
  degenerate (PyFloat f_2_5) (PyInt 1) (PyFloat f_1_5)
  /\ can_form_triangle (PyFloat f_2_5) (PyInt 1) (PyFloat f_1_5) = Return false.
Proof.
  assert (D : degenerate (PyFloat f_2_5) (PyInt 1) (PyFloat f_1_5)).
  { exists (PyInt 1), (PyFloat f_1_5), (PyFloat f_2_5). split.
    - apply Permutation_sym.
      apply (Permutation_cons_app [PyInt 1; PyFloat f_1_5] [] (PyFloat f_2_5)).
      apply Permutation_refl.
    - vm_compute; reflexivity. }
  split; [exact D|].
  apply (degenerate_rejected (PyFloat f_2_5) (PyInt 1) (PyFloat f_1_5));
    try reflexivity; exact D.
Defined.

(** ** The max-based formulation *)

(** C10, as the code supports it: for strictly positive [int] (or [bool])
    inputs the three-conjunct test and [2 * max(a, b, c) < a + b + c]
    have the same outcome, and at most one of the three conjuncts
    fails. *)
Theorem max_formulation_on_ints (a b c : value) :
  is_int a = true -> is_int b = true -> is_int c = true ->
  strictly_positive a = true -> strictly_positive b = true ->
  strictly_positive c = true ->
  can_form_triangle a b c = max_formulation a b c
  /\ (sum_gt a b c = Return false ->
      sum_gt a c b = Return true /\ sum_gt b c a = Return true)
  /\ (sum_gt a c b = Return false ->
      sum_gt a b c = Return true /\ sum_gt b c a = Return true)
  /\ (sum_gt b c a = Return false ->
      sum_gt a b c = Return true /\ sum_gt a c b = Return true).
Proof.
  intros Ia Ib Ic Pa Pb Pc.
  destruct (is_int_as_num a Ia Pa) as (x & Ha & Px).
  destruct (is_int_as_num b Ib Pb) as (y & Hb & Py).
  destruct (is_int_as_num c Ic Pc) as (z & Hc & Pz).
  rewrite (can_form_triangle_int _ _ _ _ _ _ Ha Hb Hc Px Py Pz).
  rewrite (max_formulation_int _ _ _ _ _ _ Ha Hb Hc).
  rewrite (sum_gt_num _ _ _ _ _ _ Ha Hb Hc), (sum_gt_num _ _ _ _ _ _ Ha Hc Hb),
          (sum_gt_num _ _ _ _ _ _ Hb Hc Ha).
  cbn [bind num_add]. rewrite !num_gt_int.
  repeat split.
  - f_equal.
    destruct (Z.ltb_spec z (x + y)), (Z.ltb_spec y (x + z)),
      (Z.ltb_spec x (y + z)), (Z.ltb_spec (2 * Z.max x (Z.max y z)) (x + y + z));
      simpl; try reflexivity; lia.
  - f_equal. apply Z.ltb_lt. inversion H as [H']. apply Z.ltb_ge in H'. lia.
  - f_equal. apply Z.ltb_lt. inversion H as [H']. apply Z.ltb_ge in H'. lia.
  - f_equal. apply Z.ltb_lt. inversion H as [H']. apply Z.ltb_ge in H'. lia.
  - f_equal. apply Z.ltb_lt. inversion H as [H']. apply Z.ltb_ge in H'. lia.
  - f_equal. apply Z.ltb_lt. inversion H as [H']. apply Z.ltb_ge in H'. lia.
  - f_equal. apply Z.ltb_lt. inversion H as [H']. apply Z.ltb_ge in H'. lia.
Qed.

Lemma max_formulation_on_ints_witness :
  can_form_triangle (PyBool true) (PyInt 2) (PyInt 3)
  = max_formulation (PyBool true) (PyInt 2) (PyInt 3)
  /\ (sum_gt (PyBool true) (PyInt 2) (PyInt 3) = Return false ->
      sum_gt (PyBool true) (PyInt 3) (PyInt 2) = Return true
      /\ sum_gt (PyInt 2) (PyInt 3) (PyBool true) = Return true).
Proof.
  pose proof (max_formulation_on_ints (PyBool true) (PyInt 2) (PyInt 3)
                eq_refl eq_refl eq_refl eq_refl eq_refl eq_refl) as H.
  split; [exact (proj1 H) | exact (proj1 (proj2 H))].
Defined.

(** C10 as stated fails on floats: at [(2.0 ** 53, 2.0 ** 53, 1.5)], three
    numeric and strictly positive inputs, the three-conjunct test returns
    [True] (each pairwise sum rounds above the third side) while
    [2 * max(a, b, c) < a + b + c] is [False], the sum [2 ** 54 + 1.5]
    rounding down to [2 ** 54]. *)
Lemma max_formulation_differs_on_floats :
  numeric (PyFloat f_2p53) /\ numeric (PyFloat f_1_5)
  /\ strictly_positive (PyFloat f_2p53) = true
  /\ strictly_positive (PyFloat f_1_5) = true
  /\ can_form_triangle (PyFloat f_2p53) (PyFloat f_2p53) (PyFloat f_1_5)
     = Return true
  /\ max_formulation (PyFloat f_2p53) (PyFloat f_2p53) (PyFloat f_1_5)
     = Return false.
Proof. repeat split; vm_compute; reflexivity. Qed.

(** In floating point two conjuncts can fail together: at
    [(2.0 ** -60, 1.0, 1.0)] the tiny side is absorbed by the rounding, so
    [a + b > c] and [a + c > b] (here the same comparison, the two long
    sides being equal) are both [False]. *)
Lemma two_conjuncts_fail_on_floats :
  strictly_positive (PyFloat f_2m60) = true
  /\ sum_gt (PyFloat f_2m60) (PyFloat f_1_0) (PyFloat f_1_0) = Return false
  /\ sum_gt (PyFloat f_1_0) (PyFloat f_1_0) (PyFloat f_2m60) = Return true
  /\ can_form_triangle (PyFloat f_2m60) (PyFloat f_1_0) (PyFloat f_1_0)
     = Return false.
Proof. repeat split; vm_compute; reflexivity. Qed.

(** ** Further properties of [can_form_triangle] *)

Lemma num_positive_value (v : value) (n : num) :
  as_num v = Some n -> (num_positive n = true <-> strictly_positive v = true).
Proof. intros H. now rewrite (num_positive_spec v n H). Qed.

(** X1: which error is raised when.  [TypeError] is raised exactly when
    some input is not numeric; [ValueError] exactly when all inputs are
    numeric and some input is not strictly positive (zero, negative or a
    NaN); [OverflowError] only on numeric, strictly positive inputs among
    which an [int] too large for a double meets a [float]. *)
Theorem error_kinds_characterised (a b c : value) :
  ((exists msg, can_form_triangle a b c = Raise (TypeError msg))
   <-> ~ (numeric a /\ numeric b /\ numeric c))
  /\ ((exists msg, can_form_triangle a b c = Raise (ValueError msg))
      <-> (numeric a /\ numeric b /\ numeric c)
          /\ ~ (strictly_positive a = true /\ strictly_positive b = true
                /\ strictly_positive c = true))
  /\ ((exists msg, can_form_triangle a b c = Raise (OverflowError msg))
      -> (numeric a /\ numeric b /\ numeric c)
         /\ (strictly_positive a = true /\ strictly_positive b = true
             /\ strictly_positive c = true)
         /\ no_mixed_overflow a b c = false).
Proof.
  rewrite can_form_triangle_view. unfold no_mixed_overflow.
  destruct (as_num a) as [x|] eqn:Ha; [destruct (as_num b) as [y|] eqn:Hb;
    [destruct (as_num c) as [z|] eqn:Hc|]|].
  - assert (Na : numeric a) by (apply numeric_as_num; eauto).
    assert (Nb : numeric b) by (apply numeric_as_num; eauto).
    assert (Nc : numeric c) by (apply numeric_as_num; eauto).
    unfold cft_view.
    rewrite <- (num_positive_spec _ _ Ha), <- (num_positive_spec _ _ Hb),
            <- (num_positive_spec _ _ Hc).
    destruct (num_positive x) eqn:Px, (num_positive y) eqn:Py,
      (num_positive z) eqn:Pz; simpl andb; cbv iota;
      try (split; [split; [intros [msg E]; discriminate E | intros N; tauto]
                  |split; [split; [intros _; split; [tauto|];
                                   intros (Q1 & Q2 & Q3); discriminate
                                  |intros _; eexists; reflexivity]
                          |intros [msg E]; discriminate E]]).
    destruct (arith_safe x y z) eqn:S.
    + rewrite (triangle_num_safe _ _ _ S).
      split; [split; [intros [msg E]; discriminate E | tauto]|].
      split; [split; [intros [msg E]; discriminate E | tauto]|].
      intros [msg E]; discriminate E.
    + destruct (triangle_num_outcome x y z) as [[r E]|E]; rewrite E.
      * split; [split; [intros [msg E']; discriminate E' | tauto]|].
        split; [split; [intros [msg E']; discriminate E' | tauto]|].
        intros [msg E']; discriminate E'.
      * split; [split; [intros [msg E']; discriminate E' | tauto]|].
        split; [split; [intros [msg E']; discriminate E' | tauto]|].
        intros _. tauto.
  - apply not_numeric_as_num in Hc. unfold numeric, cft_view. rewrite Hc.
    split; [split; [intros _ (_ & _ & N); discriminate N
                   |intros _; eexists; reflexivity]|].
    split; [split; [intros [msg E]; discriminate E
                   |intros [(_ & _ & N) _]; discriminate N]|].
    intros [msg E]; discriminate E.
  - apply not_numeric_as_num in Hb. unfold numeric, cft_view. rewrite Hb.
    split; [split; [intros _ (_ & N & _); discriminate N
                   |intros _; eexists; reflexivity]|].
    split; [split; [intros [msg E]; discriminate E
                   |intros [(_ & N & _) _]; discriminate N]|].
    intros [msg E]; discriminate E.
  - apply not_numeric_as_num in Ha. unfold numeric, cft_view. rewrite Ha.
    split; [split; [intros _ (N & _ & _); discriminate N
                   |intros _; eexists; reflexivity]|].
    split; [split; [intros [msg E]; discriminate E
                   |intros [(N & _ & _) _]; discriminate N]|].
    intros [msg E]; discriminate E.
Qed.

(** X2: a NaN is rejected by the positivity gate.  Whatever the other two
    numeric inputs are, a NaN side raises [ValueError], although a NaN is
    neither zero nor negative: the gate tests [side > 0], which a NaN
    fails. *)
Theorem nan_side_raises_value_error (a b c : value) :
  numeric a -> numeric b -> numeric c ->
  a = PyFloat S754_nan \/ b = PyFloat S754_nan \/ c = PyFloat S754_nan ->
  can_form_triangle a b c = Raise (ValueError value_error_msg)
  /\ zero_or_negative (PyFloat S754_nan) = false.
Proof.
  intros Ha Hb Hc H. split; [|reflexivity].
  to_nums Ha Hb Hc x y z.
  rewrite (operators_see_numbers_only _ _ _ _ _ _ Ha Hb Hc).
  rewrite (num_positive_spec _ _ Ha), (num_positive_spec _ _ Hb),
          (num_positive_spec _ _ Hc).
  destruct H as [E|[E|E]]; rewrite E; simpl strictly_positive;
    rewrite ?andb_false_r; reflexivity.
Qed.

Lemma nan_side_raises_value_error_witness :
  can_form_triangle (PyInt 3) (PyFloat S754_nan) (PyFloat f_2_5)
  = Raise (ValueError value_error_msg).
Proof.
  exact (proj1 (nan_side_raises_value_error
                  (PyInt 3) (PyFloat S754_nan) (PyFloat f_2_5)
                  eq_refl eq_refl eq_refl (or_intror (or_introl eq_refl)))).
Defined.

Lemma num_gt_pos_inf (s : num) : num_gt s (NFloat (S754_infinity false)) = false.
Proof.
  destruct s as [a|f]; unfold num_gt; simpl; [reflexivity|].
  destruct f as [s|s| |s m e]; try destruct s; reflexivity.
Qed.

(** X3: a side of [+inf] never forms a triangle.  With [float('inf')] in
    any position the call does not return [True], whatever the other two
    inputs are: no sum compares greater than [+inf]. *)
Theorem infinite_side_never_a_triangle (a b c : value) :
  a = PyFloat (S754_infinity false) \/ b = PyFloat (S754_infinity false)
  \/ c = PyFloat (S754_infinity false) ->
  can_form_triangle a b c <> Return true.
Proof.
  intros H. rewrite can_form_triangle_view. unfold cft_view.
  destruct (as_num a) as [x|] eqn:Ha; [|discriminate].
  destruct (as_num b) as [y|] eqn:Hb; [|discriminate].
  destruct (as_num c) as [z|] eqn:Hc; [|discriminate].
  destruct (num_positive x && num_positive y && num_positive z); [|discriminate].
  unfold triangle_num.
  destruct (num_add x y) as [s1|]; simpl; [|discriminate].
  destruct (num_gt s1 z) eqn:G1; simpl; [|discriminate].
  destruct (num_add x z) as [s2|]; simpl; [|discriminate].
  destruct (num_gt s2 y) eqn:G2; simpl; [|discriminate].
  destruct (num_add y z) as [s3|]; simpl; [|discriminate].
  destruct (num_gt s3 x) eqn:G3; [|discriminate].
  exfalso. destruct H as [E|[E|E]]; rewrite E in *.
  - inversion Ha; subst. now rewrite num_gt_pos_inf in G3.
  - inversion Hb; subst. now rewrite num_gt_pos_inf in G2.
  - inversion Hc; subst. now rewrite num_gt_pos_inf in G1.
Qed.

Lemma infinite_side_never_a_triangle_witness :
  can_form_triangle (PyFloat (S754_infinity false)) (PyFloat (S754_infinity false))
                    (PyFloat (S754_infinity false)) <> Return true.
Proof.
  apply infinite_side_never_a_triangle. left. reflexivity.
Defined.

(** X4: where the mixed arithmetic cannot overflow (every [int] side fits
    a double, or no side is a [float]; in particular three [int]s or three
    [float]s), numeric and strictly positive inputs always get a boolean:
    [True] when the three native inequalities hold, [False] otherwise. *)
Theorem triangle_inequality_without_overflow (a b c : value) :
  numeric a -> numeric b -> numeric c ->
  strictly_positive a = true -> strictly_positive b = true ->
  strictly_positive c = true ->
  no_mixed_overflow a b c = true ->
  (exists r, can_form_triangle a b c = Return r)
  /\ (can_form_triangle a b c = Return true
      <-> sum_gt a b c = Return true /\ sum_gt a c b = Return true
          /\ sum_gt b c a = Return true)
  /\ (can_form_triangle a b c = Return false
      <-> ~ (sum_gt a b c = Return true /\ sum_gt a c b = Return true
             /\ sum_gt b c a = Return true)).
Proof.
  intros Ha Hb Hc Pa Pb Pc S.
  pose proof (returns_true_iff a b c Ha Hb Hc Pa Pb Pc) as T.
  pose proof (returns_false_otherwise_when_no_overflow a b c Ha Hb Hc Pa Pb Pc S)
    as F.
  split; [|split; [exact T|split; [|exact F]]].
  - destruct (can_form_triangle a b c) as [r|e] eqn:E; [eauto|].
    exfalso. assert (N : Raise e = Return false); [|discriminate N].
    apply F. intros Q. apply T in Q. discriminate Q.
  - intros E Q. apply T in Q. rewrite E in Q. discriminate Q.
Qed.

Lemma triangle_inequality_without_overflow_witness :
  exists r, can_form_triangle (PyInt 3) (PyFloat f_4_0) (PyBool true) = Return r.
Proof.
  exact (proj1 (triangle_inequality_without_overflow
                  (PyInt 3) (PyFloat f_4_0) (PyBool true)
                  eq_refl eq_refl eq_refl eq_refl eq_refl eq_refl eq_refl)).
Defined.

(** X5: where the mixed arithmetic cannot overflow, the six arrangements
    of the arguments end the same way, for inputs of any kind: the same
    boolean or the same exception. *)
Theorem arrangements_agree_without_overflow (a b c : value) :
  no_mixed_overflow a b c = true ->
  can_form_triangle a c b = can_form_triangle a b c
  /\ can_form_triangle b a c = can_form_triangle a b c
  /\ can_form_triangle b c a = can_form_triangle a b c
  /\ can_form_triangle c a b = can_form_triangle a b c
  /\ can_form_triangle c b a = can_form_triangle a b c.
Proof.
  intros H.
  assert (P : forall a' b' c', Permutation [a; b; c] [a'; b'; c'] ->
                can_form_triangle a' b' c' = can_form_triangle a b c).
  { intros a' b' c' Q. now apply symmetric_when_no_overflow. }
  repeat split; apply P.
  - apply perm_skip, perm_swap.
  - apply perm_swap.
  - apply (Permutation_cons_app [b; c] [] a), Permutation_refl.
  - apply (Permutation_cons_app [c] [b] a). apply perm_swap.
  - apply (Permutation_cons_app [c; b] [] a). apply perm_swap.
Qed.

Lemma arrangements_agree_without_overflow_witness :
  can_form_triangle (PyFloat f_2_5) (PyInt 1) (PyInt 2)
  = can_form_triangle (PyInt 1) (PyInt 2) (PyFloat f_2_5).
Proof.
  exact (proj1 (proj2 (proj2 (proj2
    (arrangements_agree_without_overflow (PyInt 1) (PyInt 2) (PyFloat f_2_5)
       eq_refl))))).
Defined.

(** X6: on [int] sides the function is exact and total, whatever their
    size.  For strictly positive integers the call returns [True] exactly
    when each side is smaller than the sum of the other two, as integers,
    and [False] otherwise; it never raises. *)
Theorem integer_sides_exact (x y z : Z) :
  0 < x -> 0 < y -> 0 < z ->
  (can_form_triangle (PyInt x) (PyInt y) (PyInt z) = Return true
   <-> x < y + z /\ y < x + z /\ z < x + y)
  /\ (can_form_triangle (PyInt x) (PyInt y) (PyInt z) = Return false
      <-> ~ (x < y + z /\ y < x + z /\ z < x + y)).
Proof.
  intros Px Py Pz.
  rewrite (can_form_triangle_int (PyInt x) (PyInt y) (PyInt z) x y z
             eq_refl eq_refl eq_refl Px Py Pz).
  destruct (Z.ltb_spec z (x + y)), (Z.ltb_spec y (x + z)),
    (Z.ltb_spec x (y + z)); simpl; split; split;
    try (intros E; discriminate E); try (intros _; reflexivity);
    try lia; intros N; exfalso; lia.
Qed.

Lemma integer_sides_exact_witness :
  can_form_triangle (PyInt (10 ^ 400)) (PyInt (10 ^ 400)) (PyInt (2 * 10 ^ 400))
  = Return false
  <-> ~ (10 ^ 400 < 10 ^ 400 + 2 * 10 ^ 400
         /\ 10 ^ 400 < 10 ^ 400 + 2 * 10 ^ 400
         /\ 2 * 10 ^ 400 < 10 ^ 400 + 10 ^ 400).
Proof.
  apply (integer_sides_exact (10 ^ 400) (10 ^ 400) (2 * 10 ^ 400));
    reflexivity.
Defined.

(** X7: on [int] sides the outcome does not depend on the unit.  Scaling
    the three integers by the same positive integer changes neither the
    boolean returned nor the [ValueError] raised. *)
Theorem integer_scaling (k x y z : Z) :
  0 < k ->
  can_form_triangle (PyInt (k * x)) (PyInt (k * y)) (PyInt (k * z))
  = can_form_triangle (PyInt x) (PyInt y) (PyInt z).
Proof.
  intros Hk.
  rewrite (operators_see_numbers_only (PyInt (k * x)) (PyInt (k * y))
             (PyInt (k * z)) (NInt (k * x)) (NInt (k * y)) (NInt (k * z))
             eq_refl eq_refl eq_refl).
  rewrite (operators_see_numbers_only (PyInt x) (PyInt y) (PyInt z)
             (NInt x) (NInt y) (NInt z) eq_refl eq_refl eq_refl).
  unfold num_positive, triangle_num. cbn [num_add bind].
  rewrite !num_gt_int.
  assert (S : forall p q, (k * p <? k * q) = (p <? q)).
  { intros p q. destruct (Z.ltb_spec (k * p) (k * q)), (Z.ltb_spec p q);
      try reflexivity; nia. }
  replace 0 with (k * 0) at 1 2 3 by lia.
  rewrite <- !Z.mul_add_distr_l, !S. reflexivity.
Qed.

Lemma integer_scaling_witness :
  can_form_triangle (PyInt (1000 * 3)) (PyInt (1000 * 4)) (PyInt (1000 * 5))
  = can_form_triangle (PyInt 3) (PyInt 4) (PyInt 5).
Proof. apply integer_scaling. reflexivity. Defined.

Lemma within_range_fits (v : value) (n : num) :
  as_num v = Some n -> strictly_positive v = true ->
  int_within_double_range v = true -> num_fits n = true.
Proof.
  destruct v as [|b|z|f|s|l|l]; simpl; intros H P R; inversion H; subst;
    try reflexivity.
  apply Z.ltb_lt in P. apply Z.leb_le in R.
  destruct (float_of_int_fits z (conj P R)) as [f E]. simpl. now rewrite E.
Qed.

(** X8: a sufficient bound against the overflow.  If every [int] side is
    at most the largest finite double, [(2 ** 53 - 1) * 2 ** 971] (about
    1.8e308), then numeric and strictly positive inputs always get a
    boolean: no mix of [int] and [float] sides raises [OverflowError]. *)
Theorem no_overflow_within_double_range (a b c : value) :
  numeric a -> numeric b -> numeric c ->
  strictly_positive a = true -> strictly_positive b = true ->
  strictly_positive c = true ->
  int_within_double_range a = true -> int_within_double_range b = true ->
  int_within_double_range c = true ->
  exists r, can_form_triangle a b c = Return r.
Proof.
  intros Ha Hb Hc Pa Pb Pc Ra Rb Rc.
  to_nums Ha Hb Hc x y z.
  rewrite (operators_see_numbers_only _ _ _ _ _ _ Ha Hb Hc).
  rewrite (num_positive_spec _ _ Ha), (num_positive_spec _ _ Hb),
          (num_positive_spec _ _ Hc), Pa, Pb, Pc. simpl andb. cbv iota.
  rewrite triangle_num_safe; [eauto|].
  unfold arith_safe.
  rewrite (within_range_fits _ _ Ha Pa Ra), (within_range_fits _ _ Hb Pb Rb),
          (within_range_fits _ _ Hc Pc Rc). reflexivity.
Qed.

Lemma no_overflow_within_double_range_witness :
  exists r, can_form_triangle (PyInt max_float_int) (PyFloat f_1_0)
                              (PyInt max_float_int) = Return r.
Proof.
  apply (no_overflow_within_double_range (PyInt max_float_int) (PyFloat f_1_0)
           (PyInt max_float_int)); reflexivity.
Defined.

(** *** Doubling a double *)

Lemma fexp_64 (x : Z) : fexp prec emax x = Z.max (x - 53) (-1074).
Proof. reflexivity. Qed.

Lemma binary_round_aux_exact_noshift (m : positive) (e : Z) :
  fexp prec emax (Z.pos (digits2_pos m) + e) = e ->
  binary_round_aux prec emax false (Z.pos m) e loc_Exact
  = if e <=? emax - prec then S754_finite false m e else S754_infinity false.
Proof.
  intros F. unfold binary_round_aux, shr_fexp.
  unfold Zdigits2. rewrite F, Z.sub_diag. simpl shr.
  cbn [shr_record_of_loc loc_of_shr_record shr_m round_nearest_even fst snd].
  unfold Zdigits2. rewrite F, Z.sub_diag. reflexivity.
Qed.

Lemma digits2_pos_double (m : positive) :
  Z.pos (digits2_pos m~0) = Z.succ (Z.pos (digits2_pos m)).
Proof. simpl digits2_pos. apply Pos2Z.inj_succ. Qed.

Lemma fadd_double (m : positive) (e : Z) :
  fvalid (S754_finite false m e) = true ->
  SFcompare (fadd (S754_finite false m e) (S754_finite false m e))
            (S754_finite false m e) = Some Gt.
Proof.
  unfold fvalid, valid_binary, bounded, canonical_mantissa. intros V.
  apply andb_true_iff in V. destruct V as [C B].
  apply Z.eqb_eq in C. apply Z.leb_le in B.
  unfold fadd, SFadd. rewrite Z.min_id. unfold shl_align at 1 2.
  rewrite Z.sub_diag. cbn [fst cond_Zopp]. 
  change (Z.pos m + Z.pos m) with (Z.pos (m + m)). rewrite Pos.add_diag.
  unfold binary_normalize, binary_round.
  rewrite digits2_pos_double.
  set (d := Z.pos (digits2_pos m)) in *.
  rewrite fexp_64 in C.
  destruct (Z.eq_dec d 53) as [D|D].
  - assert (F : fexp prec emax (Z.succ d + e) = e + 1) by (rewrite fexp_64; lia).
    rewrite F. unfold shl_align.
    replace (e + 1 - e) with 1 by lia. cbv iota.
    unfold binary_round_aux. unfold shr_fexp at 1.
    unfold Zdigits2 at 1. rewrite digits2_pos_double. fold d. rewrite F.
    replace (e + 1 - e) with 1 by lia.
    cbn [shr shr_record_of_loc iter_pos shr_1 loc_of_shr_record shr_m
         round_nearest_even orb].
    unfold shr_fexp. change (Zdigits2 (Z.pos m)) with d.
    replace (d + (e + 1)) with (Z.succ d + e) by lia. rewrite F, Z.sub_diag.
    cbn [shr shr_record_of_loc shr_m].
    destruct (e + 1 <=? emax - prec); simpl.
    + now rewrite (proj2 (Z.compare_gt_iff (e + 1) e)) by lia.
    + reflexivity.
  - assert (F : fexp prec emax (Z.succ d + e) = e) by (rewrite fexp_64; lia).
    rewrite F. unfold shl_align. rewrite Z.sub_diag. cbv iota.
    rewrite binary_round_aux_exact_noshift
      by (rewrite digits2_pos_double; exact F).
    rewrite (proj2 (Z.leb_le e (emax - prec)) B). simpl.
    rewrite Z.compare_refl.
    change (Pos.compare_cont Eq m~0 m) with (Pos.compare m~0 m).
    f_equal. apply Pos.compare_gt_iff. lia.
Qed.

(** X9: an equilateral triple of any positive finite side is a triangle.
    For every strictly positive [int] (of any size), for [True], and for
    every positive finite double down to the smallest subnormal and up to
    the largest, [can_form_triangle(v, v, v)] returns [True]: doubling a
    double is exact or overflows to [+inf], and both exceed it.  Only
    [+inf] itself gives [False]. *)
Theorem equilateral_is_a_triangle (v : value) :
  numeric v -> well_formed v = true -> strictly_positive v = true ->
  (v <> PyFloat (S754_infinity false) -> can_form_triangle v v v = Return true)
  /\ (v = PyFloat (S754_infinity false) -> can_form_triangle v v v = Return false).
Proof.
  intros N W P. destruct v as [|b|z|f|s|l|l]; try discriminate N.
  - simpl in P. subst b. split; [reflexivity | discriminate].
  - simpl in P. apply Z.ltb_lt in P. split; [intros _ | discriminate].
    rewrite (can_form_triangle_int (PyInt z) (PyInt z) (PyInt z) z z z
               eq_refl eq_refl eq_refl P P P).
    assert (L : (z <? z + z) = true) by (apply Z.ltb_lt; lia).
    now rewrite L.
  - destruct f as [s|s| |s m e]; try discriminate P; destruct s;
      try discriminate P.
    + split; [intros E; now elim E | reflexivity].
    + split; [intros _ | discriminate].
      set (f := S754_finite false m e) in *.
      rewrite (operators_see_numbers_only (PyFloat f) (PyFloat f) (PyFloat f)
                 (NFloat f) (NFloat f) (NFloat f) eq_refl eq_refl eq_refl).
      rewrite (num_positive_spec (PyFloat f) (NFloat f) eq_refl). subst f.
      simpl strictly_positive. simpl andb. cbv iota.
      unfold triangle_num. cbn [num_add bind].
      assert (G : num_gt (NFloat (fadd (S754_finite false m e)
                                       (S754_finite false m e)))
                         (NFloat (S754_finite false m e)) = true).
      { unfold num_gt, num_compare. now rewrite (fadd_double m e W). }
      rewrite G. reflexivity.
Qed.

Lemma equilateral_is_a_triangle_witness :
  can_form_triangle (PyFloat float_info_max) (PyFloat float_info_max)
                    (PyFloat float_info_max) = Return true.
Proof.
  apply (equilateral_is_a_triangle (PyFloat float_info_max));
    try reflexivity. discriminate.
Defined.

(** ** The unit tests, their runner and the script *)

Open Scope string_scope.

(** The float literals of the tests are the doubles nearest to their
    decimal values, and [sys.float_info.max / 4] is exact. *)
Lemma test_literals_are_doubles :
  let q n d := fdiv (binary_normalize prec emax n 0 false)
                    (binary_normalize prec emax d 0 false) in
  q 1 1000 = f_0_001 /\ q 2 1000 = f_0_002 /\ q 1 10 = f_0_1
  /\ q 2 10 = f_0_2 /\ q 25 100 = f_0_25 /\ q 3 10 = f_0_3
  /\ q 11 10 = f_1_1 /\ q 35 10 = f_3_5 /\ q 2 1 = f_2_0 /\ q 3 1 = f_3_0
  /\ q 4 1 = f_4_0 /\ q 5 1 = f_5_0
  /\ fdiv float_info_max f_4_0 = S754_finite false 9007199254740991 969.
Proof. repeat split; vm_compute; reflexivity. Qed.

Lemma test_large_numbers_passes (sys_maxsize : Z) :
  4 <= sys_maxsize -> test_large_numbers sys_maxsize = Ok tt.
Proof.
  intros H. unfold test_large_numbers.
  assert (P : 0 < sys_maxsize / 4) by (apply Z.div_str_pos; lia).
  set (n := sys_maxsize / 4) in *.
  assert (E : can_form_triangle (PyInt n) (PyInt n) (PyInt n) = Return true).
  { rewrite (can_form_triangle_int (PyInt n) (PyInt n) (PyInt n) n n n
               eq_refl eq_refl eq_refl P P P).
    assert (L : (n <? n + n)%Z = true) by (apply Z.ltb_lt; lia).
    now rewrite L. }
  cbv zeta. rewrite E.
  assert (F : can_form_triangle (PyFloat (fdiv float_info_max f_4_0))
                (PyFloat (fdiv float_info_max f_4_0))
                (PyFloat (fdiv float_info_max f_4_0)) = Return true)
    by (vm_compute; reflexivity).
  rewrite F. reflexivity.
Qed.

(** X10: the test suite agrees with the function.  On every platform whose
    [sys.maxsize] is at least 4, each of the eight test methods of
    [TestTriangleFunction] runs to its end: no assertion fails and no
    exception escapes. *)
Theorem test_methods_pass (sys_maxsize : Z) :
  4 <= sys_maxsize ->
  Forall (fun t => snd t = Ok tt) (loadTests sys_maxsize).
Proof.
  intros H. unfold loadTests.
  repeat (apply Forall_cons; [try (vm_compute; reflexivity)|]);
    try apply Forall_nil.
  now apply test_large_numbers_passes.
Qed.

Lemma test_methods_pass_witness :
  Forall (fun t => snd t = Ok tt) (loadTests (2 ^ 63 - 1)).
Proof. apply test_methods_pass. vm_compute. discriminate. Defined.

Lemma run_all_pass (sys_maxsize : Z) :
  4 <= sys_maxsize ->
  run (loadTests sys_maxsize) {| testsRun := 0; failures := []; errors := [] |}
  = {| testsRun := 8; failures := []; errors := [] |}.
Proof.
  intros H. unfold loadTests.
  rewrite (test_large_numbers_passes sys_maxsize H). vm_compute. reflexivity.
Qed.

(** A short text is converted whatever the limit. *)
Lemma int_to_str_short (limit z : Z) :
  decimal_digits z + 1 <= str_digits_check_threshold ->
  int_to_str limit z = Return (decimal_text z).
Proof.
  intros H. unfold int_to_str.
  assert (E : ((str_digits_check_threshold
                <? (if z <? 0 then decimal_digits z + 1 else decimal_digits z))
              = false)%Z).
  { apply Z.ltb_ge. destruct (z <? 0)%Z; lia. }
  now rewrite E.
Qed.

(** Case analysis on every write of the goal. *)
Ltac write_step I :=
  first
    [ progress cbv beta iota zeta
    | progress cbn [of_write testsRun failures errors List.length Z.of_nat
                    wasSuccessful Nat.eqb andb]
    | rewrite int_to_str_short by (vm_compute; discriminate)
    | match goal with
      | |- context [write_stdout I ?s ?u] =>
          let s' := eval vm_compute in s in progress change s with s'
      end
    | match goal with
      | |- context [write_stdout I ?s ?u] =>
          destruct (write_stdout I s u) as [? [?|]]
      | |- context [runner_writes I ?r ?u] =>
          destruct (runner_writes I r u) as [? [?|]]
      end ].

Ltac writes I := repeat write_step I.

Lemma run_triangle_tests_runs (I : Interpreter) (w : stream I) :
  4 <= maxsize I ->
  run_triangle_tests I w
  = (print_all I [ "Running Triangle Validation Tests..."; str_repeat "=" 50 ] ;;>
     report I {| testsRun := 8; failures := []; errors := [] |} ;;>
     print_all I [ newline ++ str_repeat "=" 50; "Tests run: 8"; "Failures: 0";
                   "Errors: 0"; "All tests passed! ✅" ] ;;>
     done true) w.
Proof.
  intros H.
  unfold run_triangle_tests, runner_run, report, print_all, for_each, seq,
    print, done, eval.
  rewrite (run_all_pass (maxsize I) H).
  writes I; reflexivity.
Qed.

(** X11: what [run_triangle_tests()] does.  Where [sys.maxsize] is at
    least 4 it prints the banner, lets the unittest runner report a run of
    8 tests without failure or error, prints "Tests run: 8", "Failures: 0",
    "Errors: 0" and "All tests passed!", and returns [True].  A write
    that fails stops it there with the exception of that write; it never
    returns [False] and never raises anything else. *)
Theorem run_triangle_tests_succeeds (I : Interpreter) (w : stream I) :
  4 <= maxsize I ->
  run_triangle_tests I w
  = (print_all I [ "Running Triangle Validation Tests..."; str_repeat "=" 50 ] ;;>
     report I {| testsRun := 8; failures := []; errors := [] |} ;;>
     print_all I [ newline ++ str_repeat "=" 50; "Tests run: 8"; "Failures: 0";
                   "Errors: 0"; "All tests passed! ✅" ] ;;>
     done true) w
  /\ (forall v w', run_triangle_tests I w = (inl v, w') -> v = true)
  /\ (forall e w', run_triangle_tests I w <> (inr (Raised e), w')).
Proof.
  intros H. split; [exact (run_triangle_tests_runs I w H)|].
  rewrite (run_triangle_tests_runs I w H).
  unfold report, print_all, for_each, seq, print, done.
  writes I; split; intros; congruence.
Qed.

Lemma run_triangle_tests_succeeds_witness :
  (4 <= maxsize utf8_terminal)
  /\ run_triangle_tests utf8_terminal []
     = (inl true,
        [ "Running Triangle Validation Tests..."; str_repeat "=" 50;
          newline ++ str_repeat "=" 50; "Tests run: 8"; "Failures: 0";
          "Errors: 0"; "All tests passed! ✅" ]).
Proof.
  assert (H : 4 <= maxsize utf8_terminal) by (vm_compute; discriminate).
  split; [exact H|].
  rewrite (proj1 (run_triangle_tests_succeeds utf8_terminal [] H)).
  reflexivity.
Defined.

Lemma int_to_str_cases (limit z : Z) :
  (str_fits limit z = true /\ int_to_str limit z = Return (decimal_text z))
  \/ (str_fits limit z = false
      /\ int_to_str limit z = Raise (ValueError (max_str_digits_msg limit))).
Proof.
  unfold str_fits, int_to_str.
  destruct ((str_digits_check_threshold
             <? (if z <? 0 then decimal_digits z + 1 else decimal_digits z))
            && (0 <? limit) && (limit <? decimal_digits z))%Z; auto.
Qed.

Lemma call_text_fits (limit a b c : Z) :
  str_fits limit a = true -> str_fits limit b = true ->
  str_fits limit c = true ->
  call_text limit a b c = Return (plain_call_text a b c).
Proof.
  intros Fa Fb Fc. unfold call_text.
  destruct (int_to_str_cases limit a) as [[_ ->]|[N _]]; [|congruence].
  destruct (int_to_str_cases limit b) as [[_ ->]|[N _]]; [|congruence].
  destruct (int_to_str_cases limit c) as [[_ ->]|[N _]]; [|congruence].
  reflexivity.
Qed.


Lemma can_form_triangle_ints (a b c : Z) :
  can_form_triangle (PyInt a) (PyInt b) (PyInt c)
  = if ((0 <? a) && (0 <? b) && (0 <? c))%Z
    then Return ((c <? a + b) && (b <? a + c) && (a <? b + c))%Z
    else Raise (ValueError value_error_msg).
Proof.
  rewrite (operators_see_numbers_only (PyInt a) (PyInt b) (PyInt c)
             (NInt a) (NInt b) (NInt c) eq_refl eq_refl eq_refl).
  unfold num_positive. rewrite !num_gt_int.
  destruct ((0 <? a) && (0 <? b) && (0 <? c))%Z; [|reflexivity].
  unfold triangle_num. cbn [num_add Py.bind]. rewrite !num_gt_int.
  destruct (c <? a + b)%Z, (b <? a + c)%Z; reflexivity.
Qed.

Lemma example_case_positive (I : Interpreter) (a b c : Z) (w : stream I) :
  str_fits (int_max_str_digits I) a = true ->
  str_fits (int_max_str_digits I) b = true ->
  str_fits (int_max_str_digits I) c = true ->
  ((0 <? a) && (0 <? b) && (0 <? c))%Z = true ->
  example_case I a b c w
  = match write_stdout I (expected_line a b c) w with
    | (w', None) => (inl tt, w')
    | (w', Some e) =>
        print I (plain_call_text a b c ++ " raised " ++ io_error_name I e
                 ++ ": " ++ io_error_str I e) w'
    end.
Proof.
  intros Fa Fb Fc P.
  unfold example_case, try_except, seq, eval, print.
  rewrite (call_text_fits _ a b c Fa Fb Fc), can_form_triangle_ints.
  unfold expected_line. rewrite P. cbn [Py.bind].
  destruct (write_stdout I _ w) as [w' [e|]]; reflexivity.
Qed.

Lemma example_case_not_positive
    (I : Interpreter) (a b c : Z) (w : stream I) :
  str_fits (int_max_str_digits I) a = true ->
  str_fits (int_max_str_digits I) b = true ->
  str_fits (int_max_str_digits I) c = true ->
  ((0 <? a) && (0 <? b) && (0 <? c))%Z = false ->
  example_case I a b c w = print I (expected_line a b c) w.
Proof.
  intros Fa Fb Fc P.
  unfold example_case, try_except, seq, eval, print.
  rewrite (call_text_fits _ a b c Fa Fb Fc), can_form_triangle_ints.
  unfold expected_line. rewrite P.
  cbn [Py.bind raised_name raised_str exn_name exn_str].
  change (" raised " ++ "ValueError" ++ ": " ++ value_error_msg)
    with " raised ValueError: All sides must be positive numbers".
  reflexivity.
Qed.

Lemma example_case_prints (I : Interpreter) (a b c : Z) (w : stream I) :
  str_fits (int_max_str_digits I) a = true ->
  str_fits (int_max_str_digits I) b = true ->
  str_fits (int_max_str_digits I) c = true ->
  snd (write_stdout I (expected_line a b c) w) = None ->
  example_case I a b c w = print I (expected_line a b c) w.
Proof.
  intros Fa Fb Fc W.
  destruct ((0 <? a) && (0 <? b) && (0 <? c))%Z eqn:P.
  - rewrite (example_case_positive I a b c w Fa Fb Fc P). unfold print.
    destruct (write_stdout I _ w) as [w' [e|]];
      [discriminate W | reflexivity].
  - apply example_case_not_positive; assumption.
Qed.




(** X13: the output of the script on a standard output that takes every
    line.  Where [sys.maxsize] is at least 4, the script prints the
    header, the four example lines ((3, 4, 5) and (5, 5, 5) as [True],
    (1, 2, 5) and (1, 2, 3) as [False]) and a blank line, and then does
    what a successful [run_triangle_tests()] does. *)
Theorem script_output (I : Interpreter) (w : stream I) :
  4 <= maxsize I ->
  (forall line u, snd (write_stdout I line u) = None) ->
  main I w
  = (print_all I [ "Triangle Validation Function Examples:";
                   str_repeat "-" 40;
                   "can_form_triangle(3, 4, 5) = True";
                   "can_form_triangle(5, 5, 5) = True";
                   "can_form_triangle(1, 2, 5) = False";
                   "can_form_triangle(1, 2, 3) = False";
                   newline;
                   "Running Triangle Validation Tests...";
                   str_repeat "=" 50 ] ;;>
     report I {| testsRun := 8; failures := []; errors := [] |} ;;>
     print_all I [ newline ++ str_repeat "=" 50; "Tests run: 8"; "Failures: 0";
                   "Errors: 0"; "All tests passed! ✅" ] ;;>
     done tt) w.
Proof.
  intros H A.
  assert (F : forall z, decimal_digits z + 1 <= str_digits_check_threshold ->
                        str_fits (int_max_str_digits I) z = true).
  { intros z Hz. unfold str_fits. now rewrite int_to_str_short. }
  unfold main, test_cases, for_each.
  repeat first
    [ rewrite example_case_prints
        by first [apply A | apply F; vm_compute; discriminate]
    | rewrite (run_triangle_tests_runs I _ H)
    | progress unfold report, print_all, for_each, seq, print, done
    | write_step I ].
  all: reflexivity.
Qed.

Lemma script_output_witness :
  main utf8_terminal []
  = (inl tt,
     [ "Triangle Validation Function Examples:";
       str_repeat "-" 40;
       "can_form_triangle(3, 4, 5) = True";
       "can_form_triangle(5, 5, 5) = True";
       "can_form_triangle(1, 2, 5) = False";
       "can_form_triangle(1, 2, 3) = False";
       newline;
       "Running Triangle Validation Tests...";
       str_repeat "=" 50;
       newline ++ str_repeat "=" 50; "Tests run: 8"; "Failures: 0";
       "Errors: 0"; "All tests passed! ✅" ]).
Proof.
  rewrite (script_output utf8_terminal []);
    [reflexivity | vm_compute; discriminate | reflexivity].
Defined.


Close Scope string_scope.

(** ** Small integer sides of any numeric type *)

(** *** Exact shifts *)

Lemma shr_1_exact (m : Z) :
  0 <= m -> (2 | m) -> shr_1 (exact_record m) = exact_record (m / 2).
Proof.
  intros H [q E]. unfold exact_record, shr_1. simpl orb.
  destruct m as [|p|p]; try lia.
  - reflexivity.
  - destruct p as [p|p|].
    + exfalso. lia.
    + f_equal. rewrite Pos2Z.inj_xO, Z.mul_comm, Z.div_mul by lia. reflexivity.
    + exfalso. lia.
Qed.

Lemma divide_split (j k m : Z) :
  0 <= j -> 0 <= k -> (2 ^ (j + k) | m) ->
  (2 ^ j | m) /\ (2 ^ k | m / 2 ^ j) /\ m / 2 ^ j / 2 ^ k = m / 2 ^ (j + k).
Proof.
  intros Hj Hk [q E]. rewrite Z.pow_add_r in * by lia.
  assert (0 < 2 ^ j) by (apply Z.pow_pos_nonneg; lia).
  assert (0 < 2 ^ k) by (apply Z.pow_pos_nonneg; lia).
  split; [exists (q * 2 ^ k); lia|]. split.
  - exists q. subst m. replace (q * (2 ^ j * 2 ^ k)) with (q * 2 ^ k * 2 ^ j) by lia.
    now rewrite Z.div_mul by lia.
  - apply Z.div_div; lia.
Qed.

Lemma iter_shr_1_exact (p : positive) : forall m : Z,
  0 <= m -> (2 ^ Z.pos p | m) ->
  iter_pos shr_1 p (exact_record m) = exact_record (m / 2 ^ Z.pos p).
Proof.
  assert (N : forall j m, 0 <= j -> 0 <= m -> 0 <= m / 2 ^ j).
  { intros j m Hj Hm. apply Z.div_pos; [lia | apply Z.pow_pos_nonneg; lia]. }
  induction p as [p IH|p IH|]; intros m Hm Hd; cbn [iter_pos].
  - replace (Z.pos p~1) with (1 + (Z.pos p + Z.pos p)) in * by lia.
    destruct (divide_split 1 (Z.pos p + Z.pos p) m) as (H1 & H2 & E1);
      try lia; [exact Hd|].
    rewrite Z.pow_1_r in H1, H2, E1.
    destruct (divide_split (Z.pos p) (Z.pos p) (m / 2)) as (H3 & H4 & E2);
      try lia; [exact H2|].
    rewrite (shr_1_exact m Hm H1).
    rewrite (IH (m / 2)); [|apply (N 1 m) in Hm; [now rewrite Z.pow_1_r in Hm|lia]
                           |exact H3].
    rewrite IH; [|apply N; [lia|]; apply (N 1 m) in Hm;
                   [now rewrite Z.pow_1_r in Hm|lia]
                 |exact H4].
    now rewrite E2, E1.
  - replace (Z.pos p~0) with (Z.pos p + Z.pos p) in * by lia.
    destruct (divide_split (Z.pos p) (Z.pos p) m) as (H3 & H4 & E2);
      try lia; [exact Hd|].
    rewrite (IH m Hm H3).
    rewrite IH; [|apply N; [lia|exact Hm] | exact H4].
    now rewrite E2.
  - rewrite Z.pow_1_r in *. now apply shr_1_exact.
Qed.

(** Rounding a mantissa whose low bits are zero just drops them. *)
Lemma binary_round_aux_exact (p : positive) (e n : Z) :
  0 <= n ->
  fexp prec emax (Zdigits2 (Z.pos p) + e) = e + n ->
  (2 ^ n | Z.pos p) -> e + n <= 971 ->
  binary_round_aux prec emax false (Z.pos p) e loc_Exact
  = S754_finite false (Z.to_pos (Z.pos p / 2 ^ n)) (e + n).
Proof.
  intros Hn F Hd He.
  assert (P2 : 0 < 2 ^ n) by (apply Z.pow_pos_nonneg; lia).
  assert (Hq : 0 < Z.pos p / 2 ^ n).
  { apply Z.div_str_pos. split; [exact P2|].
    apply Z.divide_pos_le; [lia | exact Hd]. }
  assert (Hv : Z.pos p = Z.pos p / 2 ^ n * 2 ^ n).
  { destruct Hd as [q E]. rewrite E at 2. rewrite Z.div_mul by lia. exact E. }
  assert (Dq : Zdigits2 (Z.pos p / 2 ^ n) + n = Zdigits2 (Z.pos p)).
  { rewrite (Zdigits2_log2 (Z.pos p)) by lia.
    rewrite (Zdigits2_log2 _ Hq).
    rewrite Hv at 2. rewrite Z.log2_mul_pow2 by lia. lia. }
  unfold binary_round_aux, shr_fexp at 1. rewrite F.
  replace (e + n - e) with n by lia.
  change (shr_record_of_loc (Z.pos p) loc_Exact) with (exact_record (Z.pos p)).
  assert (S1 : shr (exact_record (Z.pos p)) e n
               = (exact_record (Z.pos p / 2 ^ n), e + n)).
  { unfold shr. destruct n as [|q|q]; try lia.
    - now rewrite Z.pow_0_r, Z.div_1_r, Z.add_0_r.
    - now rewrite iter_shr_1_exact by (try lia; exact Hd). }
  rewrite S1.
  cbn [exact_record loc_of_shr_record shr_m round_nearest_even].
  unfold shr_fexp.
  replace (Zdigits2 (Z.pos p / 2 ^ n) + (e + n)) with (Zdigits2 (Z.pos p) + e)
    by lia.
  rewrite F, Z.sub_diag. cbn [shr shr_record_of_loc shr_m].
  destruct (Z.pos p / 2 ^ n) as [|m|m] eqn:Em; try lia.
  rewrite (proj2 (Z.leb_le (e + n) (emax - prec))) by (unfold emax, prec; lia).
  reflexivity.
Qed.

(** *** Doubles that hold a small positive integer *)

Lemma holds_int_range (f : spec_float) (n : Z) :
  holds_int f n -> 0 < n < 2 ^ 53.
Proof.
  intros (m & e & -> & He & Hm & E).
  assert (P : 1 <= 2 ^ (- e)).
  { assert (0 < 2 ^ (- e)) by (apply Z.pow_pos_nonneg; lia). lia. }
  assert (0 < 2 ^ 52) by (apply Z.pow_pos_nonneg; lia). nia.
Qed.

Lemma digits_53 (m : Z) : 2 ^ 52 <= m < 2 ^ 53 -> Zdigits2 m = 53.
Proof.
  intros H. assert (0 < 2 ^ 52) by (apply Z.pow_pos_nonneg; lia).
  rewrite Zdigits2_log2 by lia. rewrite (Z.log2_unique m 52); lia.
Qed.

(** [float(n)] holds [n] for every positive integer below [2 ** 53]. *)
Lemma float_of_int_holds (n : Z) (f : spec_float) :
  0 < n < 2 ^ 53 -> float_of_int n = Return f -> holds_int f n.
Proof.
  intros [H0 H1] E.
  destruct n as [|p|p]; try lia.
  set (d := Zdigits2 (Z.pos p)).
  assert (Hd : d = Z.log2 (Z.pos p) + 1) by (apply Zdigits2_log2; lia).
  assert (Hd1 : 1 <= d <= 53).
  { pose proof (Z.log2_nonneg (Z.pos p)).
    assert (Z.log2 (Z.pos p) < 53) by (apply Z.log2_lt_pow2; lia). lia. }
  pose proof (Z.log2_spec (Z.pos p) ltac:(lia)) as [L1 L2].
  assert (Pk : 0 < 2 ^ (53 - d)) by (apply Z.pow_pos_nonneg; lia).
  assert (B : 2 ^ 52 <= Z.pos p * 2 ^ (53 - d) < 2 ^ 53).
  { replace (2 ^ 52) with (2 ^ Z.log2 (Z.pos p) * 2 ^ (53 - d))
      by (rewrite <- Z.pow_add_r by lia; f_equal; lia).
    replace (2 ^ 53) with (2 ^ Z.succ (Z.log2 (Z.pos p)) * 2 ^ (53 - d))
      by (rewrite <- Z.pow_add_r by lia; f_equal; lia).
    split; [apply Z.mul_le_mono_nonneg_r; lia
           |apply Z.mul_lt_mono_pos_r; lia]. }
  revert E. unfold float_of_int, binary_normalize, binary_round, shl_align.
  change (Z.pos (digits2_pos p)) with d.
  assert (F : fexp prec emax (d + 0) = d - 53)
    by (unfold fexp, emin, prec, emax; lia).
  rewrite F.
  destruct (d - 53 - 0) as [|k|k] eqn:K; try lia.
  - rewrite binary_round_aux_exact_noshift
      by (change (Z.pos (digits2_pos p)) with d; rewrite F; lia).
    simpl. intros E. inversion E; subst f.
    exists p, 0. replace (53 - d) with 0 in B by lia.
    rewrite Z.pow_0_r, Z.mul_1_r in B. repeat split; try lia.
  - assert (Ek : Z.pos k = 53 - d) by lia.
    assert (M : Z.pos (Pos.iter xO p k) = Z.pos p * 2 ^ (53 - d))
      by (rewrite pos_iter_xO, Ek; reflexivity).
    rewrite binary_round_aux_exact_noshift.
    + replace (d - 53 <=? emax - prec) with true
        by (symmetry; apply Z.leb_le; unfold emax, prec; lia).
      intros E. inversion E; subst f.
      exists (Pos.iter xO p k), (d - 53). rewrite M.
      repeat split; try lia. f_equal. f_equal. lia.
    + pose proof (digits_53 _ B) as D. rewrite <- M in D.
      unfold Zdigits2 in D. rewrite D.
      unfold fexp, emin, prec, emax; lia.
Qed.

Lemma shl_align_value (m : positive) (e ez : Z) :
  ez <= e ->
  Z.pos (fst (shl_align m e ez)) = Z.pos m * 2 ^ (e - ez).
Proof.
  intros H. unfold shl_align.
  destruct (ez - e) as [|k|k] eqn:K; try lia; cbn [fst].
  - replace (e - ez) with 0 by lia. lia.
  - rewrite pos_iter_xO. f_equal. f_equal. lia.
Qed.

(** Adding two such doubles whose sum stays below [2 ** 53] is exact. *)
Lemma fadd_holds (f g : spec_float) (x y : Z) :
  holds_int f x -> holds_int g y -> x + y < 2 ^ 53 ->
  holds_int (fadd f g) (x + y).
Proof.
  intros Hf Hg Hs.
  pose proof (holds_int_range _ _ Hf) as [X0 X1].
  pose proof (holds_int_range _ _ Hg) as [Y0 Y1].
  destruct Hf as (m1 & e1 & -> & He1 & Hm1 & E1).
  destruct Hg as (m2 & e2 & -> & He2 & Hm2 & E2).
  unfold fadd, SFadd. set (ez := Z.min e1 e2).
  assert (Hz1 : ez <= e1) by (unfold ez; lia).
  assert (Hz2 : ez <= e2) by (unfold ez; lia).
  cbn [cond_Zopp].
  rewrite (shl_align_value m1 e1 ez Hz1), (shl_align_value m2 e2 ez Hz2).
  assert (S : Z.pos m1 * 2 ^ (e1 - ez) + Z.pos m2 * 2 ^ (e2 - ez)
              = (x + y) * 2 ^ (- ez)).
  { rewrite E1, E2, Z.mul_add_distr_r, <- !Z.mul_assoc, <- !Z.pow_add_r by lia.
    f_equal; f_equal; f_equal; lia. }
  rewrite S. clear S.
  set (s := x + y) in *.
  set (d := Zdigits2 s).
  assert (Hd : d = Z.log2 s + 1) by (apply Zdigits2_log2; lia).
  assert (Hd1 : 1 <= d <= 53).
  { pose proof (Z.log2_nonneg s).
    assert (Z.log2 s < 53) by (apply Z.log2_lt_pow2; lia). lia. }
  pose proof (Z.log2_spec s ltac:(lia)) as [L1 L2].
  assert (Pz : 0 < 2 ^ (- ez)) by (apply Z.pow_pos_nonneg; lia).
  (* the sides are at least 2 ^ (52 + e), so the sum has enough digits *)
  assert (Big : 2 ^ (52 + ez) <= s).
  { assert (A : 2 ^ (52 + e1) <= x).
    { apply Z.mul_le_mono_pos_r with (p := 2 ^ (- e1));
        [apply Z.pow_pos_nonneg; lia|].
      rewrite <- Z.pow_add_r by lia. replace (52 + e1 + - e1) with 52 by lia.
      lia. }
    assert (2 ^ (52 + ez) <= 2 ^ (52 + e1)) by (apply Z.pow_le_mono_r; lia).
    lia. }
  assert (Dge : 53 + ez <= d).
  { assert (52 + ez <= Z.log2 s) by (apply Z.log2_le_pow2; lia). lia. }
  destruct (s * 2 ^ (- ez)) as [|p|p] eqn:Ep; try nia.
  assert (Dp : Zdigits2 (Z.pos p) = d - ez).
  { rewrite <- Ep, Zdigits2_log2 by nia. rewrite Z.log2_mul_pow2 by lia. lia. }
  unfold binary_normalize, binary_round, shl_align.
  change (Z.pos (digits2_pos p)) with (Zdigits2 (Z.pos p)). rewrite Dp.
  assert (F : fexp prec emax (d - ez + ez) = d - 53)
    by (unfold fexp, emin, prec, emax; lia).
  rewrite F.
  destruct (d - 53 - ez) as [|k|k] eqn:K; try lia.
  - rewrite (binary_round_aux_exact p ez 0); try lia;
      [|rewrite Dp, F; lia | rewrite Z.pow_0_r; apply Z.divide_1_l].
    rewrite Z.pow_0_r, Z.div_1_r, Z.add_0_r. cbn [Z.to_pos].
    exists p, ez. rewrite <- Ep.
    assert (Ez : ez = d - 53) by lia.
    repeat split; try lia.
    + rewrite Ez. replace (2 ^ 52) with (2 ^ Z.log2 s * 2 ^ (- (d - 53)))
        by (rewrite <- Z.pow_add_r by lia; f_equal; lia).
      apply Z.mul_le_mono_nonneg_r; [apply Z.pow_nonneg|]; lia.
    + rewrite Ez. replace (2 ^ 53) with (2 ^ Z.succ (Z.log2 s) * 2 ^ (- (d - 53)))
        by (rewrite <- Z.pow_add_r by lia; f_equal; lia).
      apply Z.mul_lt_mono_pos_r; [apply Z.pow_pos_nonneg|]; lia.
  - set (n := d - 53 - ez) in *.
    assert (Hn : 0 < n <= - ez) by lia.
    assert (Split : 2 ^ (- ez) = 2 ^ (53 - d) * 2 ^ n)
      by (rewrite <- Z.pow_add_r by lia; f_equal; unfold n; lia).
    assert (Pn : 0 < 2 ^ n) by (apply Z.pow_pos_nonneg; lia).
    assert (Q : Z.pos p / 2 ^ n = s * 2 ^ (53 - d)).
    { rewrite <- Ep, Split, Z.mul_assoc, Z.div_mul by lia. reflexivity. }
    rewrite (binary_round_aux_exact p ez n); try lia.
    + rewrite Q. replace (ez + n) with (d - 53) by (unfold n; lia).
      assert (Pk : 0 < 2 ^ (53 - d)) by (apply Z.pow_pos_nonneg; lia).
      assert (Bl : 2 ^ 52 <= s * 2 ^ (53 - d)).
      { replace (2 ^ 52) with (2 ^ Z.log2 s * 2 ^ (53 - d))
          by (rewrite <- Z.pow_add_r by lia; f_equal; lia).
        apply Z.mul_le_mono_nonneg_r; lia. }
      assert (Bu : s * 2 ^ (53 - d) < 2 ^ 53).
      { replace (2 ^ 53) with (2 ^ Z.succ (Z.log2 s) * 2 ^ (53 - d))
          by (rewrite <- Z.pow_add_r by lia; f_equal; lia).
        apply Z.mul_lt_mono_pos_r; lia. }
      exists (Z.to_pos (s * 2 ^ (53 - d))), (d - 53).
      rewrite Z2Pos.id by lia.
      repeat split; try lia. f_equal. f_equal. lia.
    + rewrite Dp, F. unfold n. lia.
    + exists (s * 2 ^ (53 - d)). rewrite <- Ep, Split. lia.
Qed.

Lemma mul_compare_pos (n m p : Z) : 0 < p -> (n * p ?= m * p) = (n ?= m).
Proof.
  intros H. destruct (Z.compare_spec n m) as [E|L|G].
  - subst. apply Z.compare_refl.
  - apply Z.compare_lt_iff. nia.
  - apply Z.compare_gt_iff. nia.
Qed.

Lemma holds_int_compare (f g : spec_float) (x y : Z) :
  holds_int f x -> holds_int g y -> SFcompare f g = Some (x ?= y).
Proof.
  intros (m1 & e1 & -> & He1 & Hm1 & E1) (m2 & e2 & -> & He2 & Hm2 & E2).
  assert (P1 : 0 < 2 ^ (- e1)) by (apply Z.pow_pos_nonneg; lia).
  assert (P2 : 0 < 2 ^ (- e2)) by (apply Z.pow_pos_nonneg; lia).
  assert (T : 2 ^ 53 = 2 * 2 ^ 52) by reflexivity.
  assert (Lt_case : forall m1 e1 m2 e2 x y,
            -52 <= e1 <= 0 -> -52 <= e2 <= 0 ->
            2 ^ 52 <= m1 < 2 ^ 53 -> 2 ^ 52 <= m2 < 2 ^ 53 ->
            m1 = x * 2 ^ (- e1) -> m2 = y * 2 ^ (- e2) -> e1 < e2 -> x < y).
  { clear. intros m1 e1 m2 e2 x y He1 He2 Hm1 Hm2 E1 E2 L.
    assert (P2 : 0 < 2 ^ (- e2)) by (apply Z.pow_pos_nonneg; lia).
    assert (S : 2 ^ (- e1) = 2 ^ (- e2) * 2 ^ (e2 - e1))
      by (rewrite <- Z.pow_add_r by lia; f_equal; lia).
    assert (G : 2 <= 2 ^ (e2 - e1)).
    { change 2 with (2 ^ 1) at 1. apply Z.pow_le_mono_r; lia. }
    assert (T : 2 ^ 53 = 2 * 2 ^ 52) by reflexivity.
    rewrite S in E1.
    assert (0 < y) by nia.
    destruct (Z.lt_ge_cases x y) as [|Hge]; [assumption|exfalso].
    assert (y * 2 ^ (- e2) * 2 <= x * 2 ^ (- e2) * 2 ^ (e2 - e1)).
    { apply Z.mul_le_mono_nonneg; try nia. }
    nia. }
  unfold SFcompare.
  destruct (Z.compare_spec e1 e2) as [Ee|El|Eg].
  - subst e2.
    change (Pos.compare_cont Eq m1 m2) with (Z.pos m1 ?= Z.pos m2).
    rewrite E1, E2. now rewrite mul_compare_pos.
  - f_equal. symmetry. apply Z.compare_lt_iff.
    eapply (Lt_case (Z.pos m1) e1 (Z.pos m2) e2); eauto.
  - f_equal. symmetry. apply Z.compare_gt_iff.
    eapply (Lt_case (Z.pos m2) e2 (Z.pos m1) e1); eauto.
Qed.

Lemma holds_int_cmp_int (p : Z) (g : spec_float) (y : Z) :
  holds_int g y -> cmp_int_float p g = Some (p ?= y).
Proof.
  intros (m & e & -> & He & Hm & E).
  assert (P : 0 < 2 ^ (- e)) by (apply Z.pow_pos_nonneg; lia).
  unfold cmp_int_float, cond_Zopp. f_equal.
  destruct (0 <=? e) eqn:L.
  - apply Z.leb_le in L. assert (e = 0) by lia. subst e.
    simpl in E. rewrite Z.pow_0_r, Z.mul_1_r. rewrite E. f_equal. lia.
  - rewrite E. now rewrite mul_compare_pos.
Qed.

Lemma num_compare_holds (a b : num) (x y : Z) :
  num_holds a x -> num_holds b y -> num_compare a b = Some (x ?= y).
Proof.
  destruct a as [p|f], b as [q|g]; simpl; intros Ha Hb; subst.
  - reflexivity.
  - now apply holds_int_cmp_int.
  - rewrite (holds_int_cmp_int y f x Ha). simpl. f_equal.
    symmetry. apply Z.compare_antisym.
  - now apply holds_int_compare.
Qed.

Lemma num_gt_holds (a b : num) (x y : Z) :
  num_holds a x -> num_holds b y -> num_gt a b = (y <? x).
Proof.
  intros Ha Hb. unfold num_gt. rewrite (num_compare_holds a b x y Ha Hb).
  destruct (Z.compare_spec x y), (Z.ltb_spec y x); try reflexivity; lia.
Qed.

Lemma float_of_int_small (x : Z) :
  0 < x < 2 ^ 53 -> exists f, float_of_int x = Return f /\ holds_int f x.
Proof.
  intros H. destruct (float_of_int_fits x) as [f E].
  - pose proof max_float_int_ge. lia.
  - exists f. split; [exact E|]. now apply float_of_int_holds.
Qed.

Lemma num_add_holds (a b : num) (x y : Z) :
  num_holds a x -> num_holds b y -> 0 < x -> 0 < y -> x + y < 2 ^ 53 ->
  exists s, num_add a b = Return s /\ num_holds s (x + y).
Proof.
  destruct a as [p|f], b as [q|g]; simpl; intros Ha Hb Px Py S; subst.
  - eexists; split; reflexivity.
  - destruct (float_of_int_small x) as (f & E & Hf); [lia|].
    rewrite E. simpl. eexists; split; [reflexivity|]. now apply fadd_holds.
  - destruct (float_of_int_small y) as (g & E & Hg); [lia|].
    rewrite E. simpl. eexists; split; [reflexivity|]. now apply fadd_holds.
  - eexists; split; [reflexivity|]. now apply fadd_holds.
Qed.

Lemma side_holds_num (v : value) (n : Z) :
  0 < n < 2 ^ 53 -> side_holds v n ->
  exists k, as_num v = Some k /\ num_holds k n.
Proof.
  intros R H. destruct v as [|b|z|f|s|l|l]; simpl in H; try contradiction.
  - exists (NInt (Z.b2z b)). split; [reflexivity | exact H].
  - exists (NInt z). split; [reflexivity | exact H].
  - exists (NFloat f). split; [reflexivity|]. now apply float_of_int_holds.
Qed.

(** X14: a small integer side may be given as an [int], a [bool] or the
    [float] of the same value.  For strictly positive integers below
    [2 ** 52], whichever way each side is written, the call returns the
    boolean of the triangle inequality on the integers: mixed sums and
    comparisons are exact in that range. *)
Theorem small_integer_sides_any_type (a b c : value) (x y z : Z) :
  side_holds a x -> side_holds b y -> side_holds c z ->
  0 < x < 2 ^ 52 -> 0 < y < 2 ^ 52 -> 0 < z < 2 ^ 52 ->
  can_form_triangle a b c
  = Return ((z <? x + y) && (y <? x + z) && (x <? y + z))
  /\ can_form_triangle a b c
     = can_form_triangle (PyInt x) (PyInt y) (PyInt z).
Proof.
  intros Sa Sb Sc Rx Ry Rz.
  assert (T : 2 ^ 53 = 2 ^ 52 + 2 ^ 52) by reflexivity.
  assert (E : can_form_triangle a b c
              = Return ((z <? x + y) && (y <? x + z) && (x <? y + z))).
  { destruct (side_holds_num a x) as (ka & Ha & Va); [lia | exact Sa|].
    destruct (side_holds_num b y) as (kb & Hb & Vb); [lia | exact Sb|].
    destruct (side_holds_num c z) as (kc & Hc & Vc); [lia | exact Sc|].
    rewrite (operators_see_numbers_only _ _ _ _ _ _ Ha Hb Hc).
    unfold num_positive.
    rewrite (num_gt_holds ka (NInt 0) x 0 Va eq_refl),
            (num_gt_holds kb (NInt 0) y 0 Vb eq_refl),
            (num_gt_holds kc (NInt 0) z 0 Vc eq_refl).
    rewrite (proj2 (Z.ltb_lt 0 x)), (proj2 (Z.ltb_lt 0 y)),
            (proj2 (Z.ltb_lt 0 z)) by lia.
    simpl andb. cbv iota. unfold triangle_num.
    destruct (num_add_holds ka kb x y Va Vb) as (s1 & A1 & V1); try lia.
    destruct (num_add_holds ka kc x z Va Vc) as (s2 & A2 & V2); try lia.
    destruct (num_add_holds kb kc y z Vb Vc) as (s3 & A3 & V3); try lia.
    rewrite A1, A2, A3. cbn [bind].
    rewrite (num_gt_holds s1 kc _ _ V1 Vc), (num_gt_holds s2 kb _ _ V2 Vb),
            (num_gt_holds s3 ka _ _ V3 Va).
    destruct (z <? x + y), (y <? x + z); reflexivity. }
  split; [exact E|]. rewrite E.
  rewrite (can_form_triangle_int (PyInt x) (PyInt y) (PyInt z) x y z
             eq_refl eq_refl eq_refl); try lia. reflexivity.
Qed.

Lemma small_integer_sides_any_type_witness :
  can_form_triangle (PyInt 3) (PyFloat f_4_0) (PyBool true)
  = can_form_triangle (PyInt 3) (PyInt 4) (PyInt 1).
Proof.
  apply (small_integer_sides_any_type (PyInt 3) (PyFloat f_4_0) (PyBool true)
           3 4 1); try reflexivity; split; reflexivity.
Defined.
